(** * Geographic RTMP router (Cloudflare Worker): model and properties

    The repository holds two versions of one worker:
    - [src/index.js], the plain handler (module [Plain] below);
    - a second file with the same tables and decision function, whose
      handler also logs, times the request and catches errors (module
      [Logged] below).

    The configuration tables and [determineClosestServer] are textually
    identical in both files and are modelled once. *)

From Stdlib Require Import ZArith Ascii String.
From stdpp Require Import base strings gmap list option pretty.

Local Open Scope string_scope.

(** ** The fragment of JavaScript the worker relies on *)

Module JS.

(** Values that can flow through the routing decision: strings,
    [undefined], and what a property read can find on
    [Object.prototype] (built-in functions, and the prototype object
    itself through the [__proto__] accessor). A string is a string of
    bytes: the JavaScript strings modelled have code units below 256. *)
Inductive value : Type :=
| Undefined
| Str (s : string)
| NativeFunction (name : string)
| ObjectPrototypeRef.

(** ToBoolean. *)
Definition truthy (v : value) : bool :=
  match v with
  | Undefined => false
  | Str s => negb (String.eqb s "")
  | NativeFunction _ => true
  | ObjectPrototypeRef => true
  end.

(** ToString, which is also ToPropertyKey on these values. *)
Definition ToString (v : value) : string :=
  match v with
  | Undefined => "undefined"
  | Str s => s
  | NativeFunction name => "function " +:+ name +:+ "() { [native code] }"
  | ObjectPrototypeRef => "[object Object]"
  end.

(** An object literal [{ k: v, ... }]: its own properties, with
    [Object.prototype] as its prototype. *)
Definition object_literal (props : list (string * value)) : gmap string value :=
  list_to_map props.

(** The properties every object literal inherits. *)
Definition ObjectPrototype : gmap string value :=
  list_to_map
    [ ("constructor", NativeFunction "Object");
      ("__defineGetter__", NativeFunction "__defineGetter__");
      ("__defineSetter__", NativeFunction "__defineSetter__");
      ("hasOwnProperty", NativeFunction "hasOwnProperty");
      ("__lookupGetter__", NativeFunction "__lookupGetter__");
      ("__lookupSetter__", NativeFunction "__lookupSetter__");
      ("isPrototypeOf", NativeFunction "isPrototypeOf");
      ("propertyIsEnumerable", NativeFunction "propertyIsEnumerable");
      ("toString", NativeFunction "toString");
      ("valueOf", NativeFunction "valueOf");
      ("__proto__", ObjectPrototypeRef);
      ("toLocaleString", NativeFunction "toLocaleString") ].

(** Property read [o[k]]: own property first, then the prototype,
    [undefined] when neither has it. *)
Definition Get (o : gmap string value) (k : string) : value :=
  match o !! k with
  | Some v => v
  | None =>
      match ObjectPrototype !! k with
      | Some v => v
      | None => Undefined
      end
  end.

(** Computed member access [o[v]] with an arbitrary value as key. *)
Definition GetV (o : gmap string value) (v : value) : value :=
  Get o (ToString v).

(** A field that may be missing reads as [undefined]. *)
Definition field (o : option string) : value :=
  match o with
  | Some s => Str s
  | None => Undefined
  end.

(** [a || d] on an optional string with a string default. *)
Definition or_else (o : option string) (d : string) : string :=
  if truthy (field o) then ToString (field o) else d.

(** [s.split(sep)] for a one-character separator. *)
Fixpoint split (sep : ascii) (s : string) : list string :=
  match s with
  | EmptyString => [EmptyString]
  | String c rest =>
      if Ascii.eqb c sep then EmptyString :: split sep rest
      else match split sep rest with
           | [] => [String c EmptyString]
           | w :: ws => String c w :: ws
           end
  end.

End JS.

Import JS.

(** ** Configuration tables *)

(* const RTMP_SERVERS = { europe: ..., americas: ..., asia: ..., default: ... } *)
Definition RTMP_SERVERS : gmap string value :=
  object_literal
    [ ("europe", Str "eu.streammy.io");
      ("americas", Str "eu.streammy.io");
      ("asia", Str "eu.streammy.io");
      ("default", Str "eu.streammy.io") ].

(* const CONTINENT_TO_REGION = { EU: ..., NA: ..., ... } *)
Definition CONTINENT_TO_REGION : gmap string value :=
  object_literal
    [ ("EU", Str "europe");
      ("NA", Str "americas");
      ("SA", Str "americas");
      ("AS", Str "asia");
      ("OC", Str "asia");
      ("AF", Str "europe");
      ("AN", Str "europe") ].

(* const COUNTRY_OVERRIDES = { 'RU': ..., ... } *)
Definition COUNTRY_OVERRIDES : gmap string value :=
  object_literal
    [ ("RU", Str "europe");
      ("TR", Str "europe");
      ("EG", Str "europe");
      ("AU", Str "asia");
      ("NZ", Str "asia") ].

(** ** Requests *)

(** [request.cf]: the geolocation metadata attached by the platform. *)
Record CfProperties : Type := mkCf {
  country : option string;
  continent : option string;
  region : option string
}.

Record Request : Type := mkRequest {
  url : string;
  method : string;
  headers : list (string * string);
  cf : option CfProperties
}.

(** ** The routing decision *)

Definition determineClosestServer (request : Request) : value :=
  match cf request with
  | None => Get RTMP_SERVERS "default"
  | Some cf =>
      if truthy (field (country cf))
         && truthy (GetV COUNTRY_OVERRIDES (field (country cf)))
      then
        let region := GetV COUNTRY_OVERRIDES (field (country cf)) in
        GetV RTMP_SERVERS region
      else if truthy (field (continent cf))
              && truthy (GetV CONTINENT_TO_REGION (field (continent cf)))
      then
        let region := GetV CONTINENT_TO_REGION (field (continent cf)) in
        GetV RTMP_SERVERS region
      else Get RTMP_SERVERS "default"
  end.

(** ** Effects: console output and exceptions *)

Record JSError : Type := mkError {
  name : string;
  message : string
}.

Definition TypeError (msg : string) : JSError := mkError "TypeError" msg.

Inductive completion (A : Type) : Type :=
| Normal (a : A)
| Throw (e : JSError).
Arguments Normal {A} a.
Arguments Throw {A} e.

(** The fields the worker reads from a parsed URL. *)
Record URL : Type := mkURL {
  hostname : string;
  pathname : string;
  search : string
}.

(** A response: its status, its body ([None] for [null]) and the header
    lines it holds. The worker builds one with [new_Response] below;
    responses of the upstream [fetch] have the same shape. *)
Record Response : Type := mkResponse {
  status : Z;
  body : option string;
  response_headers : list (string * string)
}.

(* const logData = { timestamp, url, hostname, clientIP, userAgent, country,
   continent, region }, later extended with selectedServer and serverRegion *)
Record LogData : Type := mkLogData {
  log_timestamp : string;
  log_url : string;
  log_hostname : string;
  log_clientIP : string;
  log_userAgent : string;
  log_country : string;
  log_continent : string;
  log_region : string;
  log_selectedServer : option value;
  log_serverRegion : option value
}.

Inductive ConsoleEntry : Type :=
| console_log (text : string) (data : option LogData)
(* console.error(text, { stack: error.stack, url, method }) *)
| console_error (text : string) (error : JSError) (req_url req_method : string).

(** What the worker takes from its runtime. *)
Record Platform : Type := mkPlatform {
  (* new URL(s), which throws on a string that is not a URL *)
  new_URL : string -> completion URL;
  (* the global fetch(request), awaited *)
  global_fetch : Request -> completion Response;
  (* new Date().toISOString() *)
  Date_toISOString : string;
  (* the two successive readings of Date.now() *)
  Date_now_start : Z;
  Date_now_end : Z;
  (* the TypeError of the Headers constructor for a header name and a value
     that is not a header value *)
  invalid_header_value : string -> string -> JSError
}.

(** A computation writes to the console and then completes. *)
Definition M (A : Type) : Type := (list ConsoleEntry * completion A)%type.

#[global] Instance M_ret : MRet M := fun A a => ([], Normal a).

#[global] Instance M_bind : MBind M := fun A B k m =>
  match m with
  | (out, Normal a) => let (out', r) := k a in ((out ++ out')%list, r)
  | (out, Throw e) => (out, Throw e)
  end.

Definition lift {A : Type} (c : completion A) : M A := ([], c).

Definition emit (entry : ConsoleEntry) : M unit := ([entry], Normal tt).

(* try { body } catch (error) { handler } *)
Definition try_catch {A : Type} (body : M A) (handler : JSError -> M A) : M A :=
  match body with
  | (out, Normal a) => (out, Normal a)
  | (out, Throw e) => let (out', r) := handler e in ((out ++ out')%list, r)
  end.

(** Header names are compared without regard to the case of ASCII
    letters. *)
Definition ascii_lower (c : ascii) : ascii :=
  let n := nat_of_ascii c in
  if (65 <=? n)%nat && (n <=? 90)%nat then ascii_of_nat (n + 32) else c.

Fixpoint lower (s : string) : string :=
  match s with
  | EmptyString => EmptyString
  | String c rest => String (ascii_lower c) (lower rest)
  end.

(** [headers.get(name)] on a list of header lines. *)
Fixpoint Headers_get (hs : list (string * string)) (key : string) : option string :=
  match hs with
  | [] => None
  | (k, v) :: rest =>
      if String.eqb (lower k) (lower key) then Some v else Headers_get rest key
  end.

(** *** Header values, as the Headers constructor treats them

    A value is first normalized (leading and trailing HTTP whitespace is
    removed); it is then a header value when it holds no NUL, LF or CR. *)

(* tab, LF, CR, space *)
Definition is_http_whitespace (c : ascii) : bool :=
  match nat_of_ascii c with
  | 9%nat | 10%nat | 13%nat | 32%nat => true
  | _ => false
  end.

(* NUL, LF, CR *)
Definition is_forbidden_byte (c : ascii) : bool :=
  match nat_of_ascii c with
  | 0%nat | 10%nat | 13%nat => true
  | _ => false
  end.

Fixpoint strip_leading (s : string) : string :=
  match s with
  | EmptyString => EmptyString
  | String c rest => if is_http_whitespace c then strip_leading rest else s
  end.

Fixpoint strip_trailing (s : string) : string :=
  match s with
  | EmptyString => EmptyString
  | String c rest =>
      match strip_trailing rest with
      | EmptyString => if is_http_whitespace c then EmptyString else String c EmptyString
      | kept => String c kept
      end
  end.

Definition normalize_value (v : string) : string :=
  strip_trailing (strip_leading v).

Fixpoint is_header_value (v : string) : bool :=
  match v with
  | EmptyString => true
  | String c rest => negb (is_forbidden_byte c) && is_header_value rest
  end.

(** [new Headers(init)] on the own properties of [init], in their order: each
    value is normalized and stored, and the first one that is not a header
    value makes the constructor throw. *)
Fixpoint Headers_fill (P : Platform) (init : list (string * string))
    : completion (list (string * string)) :=
  match init with
  | [] => Normal []
  | (k, v) :: rest =>
      if is_header_value (normalize_value v) then
        match Headers_fill P rest with
        | Normal hs => Normal ((k, normalize_value v) :: hs)
        | Throw e => Throw e
        end
      else Throw (invalid_header_value P k v)
  end.

(** [new Response(body, { status, headers })] *)
Definition new_Response (P : Platform) (body : option string) (status : Z)
    (headers : list (string * string)) : completion Response :=
  match Headers_fill P headers with
  | Normal hs => Normal (mkResponse status body hs)
  | Throw e => Throw e
  end.

(** [request.cf?.f] *)
Definition cf_field (f : CfProperties -> option string) (request : Request) : option string :=
  match cf request with
  | Some geo => f geo
  | None => None
  end.

(** [closestServer.split('.')[0]]: a method call on [undefined] (or on a
    value without a [split] method) throws. *)
Definition split_dot_first (closestServer : value) : completion value :=
  match closestServer with
  | Str s =>
      Normal (match split "." s with
              | w :: _ => Str w
              | [] => Undefined
              end)
  | Undefined =>
      Throw (TypeError "Cannot read properties of undefined (reading 'split')")
  | NativeFunction _ | ObjectPrototypeRef =>
      Throw (TypeError "closestServer.split is not a function")
  end.

(** ** The plain worker ([src/index.js]) *)

Module Plain.
Section WithPlatform.
Variable P : Platform.

Definition handleRequest (request : Request) : M Response :=
  u ← lift (new_URL P (url request));
  let hostname := hostname u in
  if negb (String.eqb hostname "live.streammy.io") then
    lift (global_fetch P request)
  else
    let closestServer := determineClosestServer request in
    let targetUrl :=
      "https://" +:+ ToString closestServer +:+ pathname u +:+ search u in
    regionLabel ← lift (split_dot_first closestServer);
    lift (new_Response P None 302
            [ ("Location", targetUrl);
              ("Cache-Control", "no-cache");
              ("X-Streammy-Region", ToString regionLabel) ]).

(* export default { async fetch(request, env, ctx) { ... } }; env and ctx
   are not used *)
Definition fetch (request : Request) : M Response :=
  handleRequest request.

End WithPlatform.
End Plain.

(** ** The logging and timing worker *)

Definition internal_error_response (error : JSError) : Response :=
  mkResponse 500 (Some ("Internal Server Error: " +:+ message error))
    [ ("Content-Type", "text/plain") ].

Module Logged.
Section WithPlatform.
Variable P : Platform.

Definition handleRequest (request : Request) : M Response :=
  u ← lift (new_URL P (url request));
  let hostname := hostname u in
  let logData :=
    {| log_timestamp := Date_toISOString P;
       log_url := url request;
       log_hostname := hostname;
       log_clientIP := or_else (Headers_get (headers request) "cf-connecting-ip") "unknown";
       log_userAgent := or_else (Headers_get (headers request) "user-agent") "unknown";
       log_country := or_else (cf_field country request) "unknown";
       log_continent := or_else (cf_field continent request) "unknown";
       log_region := or_else (cf_field region request) "unknown";
       log_selectedServer := None;
       log_serverRegion := None |} in
  if negb (String.eqb hostname "live.streammy.io") then
    emit (console_log ("[NON-TARGET] Request for " +:+ hostname) (Some logData));;
    lift (global_fetch P request)
  else
    let closestServer := determineClosestServer request in
    serverRegion ← lift (split_dot_first closestServer);
    let logData :=
      {| log_timestamp := log_timestamp logData;
         log_url := log_url logData;
         log_hostname := log_hostname logData;
         log_clientIP := log_clientIP logData;
         log_userAgent := log_userAgent logData;
         log_country := log_country logData;
         log_continent := log_continent logData;
         log_region := log_region logData;
         log_selectedServer := Some closestServer;
         log_serverRegion := Some serverRegion |} in
    emit (console_log ("[GEO-ROUTING] Redirecting to " +:+ ToString closestServer)
            (Some logData));;
    let targetUrl :=
      "https://" +:+ ToString closestServer +:+ pathname u +:+ search u in
    lift (new_Response P None 302
            [ ("Location", targetUrl);
              ("Cache-Control", "no-cache");
              ("X-Streammy-Region", ToString serverRegion);
              ("X-Streammy-Country", log_country logData);
              ("X-Streammy-Continent", log_continent logData) ]).

Definition fetch (request : Request) : M Response :=
  try_catch
    (let startTime := Date_now_start P in
     response ← handleRequest request;
     let responseTime := (Date_now_end P - startTime)%Z in
     emit (console_log
             ("[PERFORMANCE] Request processed in " +:+ pretty responseTime +:+ "ms")
             None);;
     mret response)
    (fun error =>
       emit (console_error ("[ERROR] " +:+ message error) error
               (url request) (method request));;
       lift (new_Response P (Some ("Internal Server Error: " +:+ message error)) 500
               [ ("Content-Type", "text/plain") ])).

End WithPlatform.
End Logged.

(** ** A concrete runtime for the examples

    It knows three URLs, answers the pass-through of the second one with a
    fixed page, and fails on everything else. *)

Definition example_platform : Platform :=
  {| new_URL := fun s =>
       if String.eqb s "https://live.streammy.io/stream/abc?token=123" then
         Normal (mkURL "live.streammy.io" "/stream/abc" "?token=123")
       else if String.eqb s "https://other.streammy.io/anything" then
         Normal (mkURL "other.streammy.io" "/anything" "")
       else if String.eqb s "https://down.streammy.io/" then
         Normal (mkURL "down.streammy.io" "/" "")
       else Throw (TypeError "Invalid URL");
     global_fetch := fun r =>
       if String.eqb (url r) "https://other.streammy.io/anything" then
         Normal (mkResponse 200 (Some "upstream page") [("Content-Type", "text/html")])
       else Throw (TypeError "fetch failed");
     Date_toISOString := "2024-01-01T00:00:00.000Z";
     Date_now_start := 1704067200000;
     Date_now_end := 1704067200003;
     invalid_header_value := fun k v =>
       TypeError ("Invalid value for header " +:+ k) |}.

Definition live_request (geo : option CfProperties) : Request :=
  mkRequest "https://live.streammy.io/stream/abc?token=123" "GET"
    [("user-agent", "ffmpeg")] geo.

Definition other_request : Request :=
  mkRequest "https://other.streammy.io/anything" "GET" [] None.

Definition down_request : Request :=
  mkRequest "https://down.streammy.io/" "GET" [] None.

Definition malformed_request : Request :=
  mkRequest "not a url" "GET" [] None.

Definition geo (c k : option string) : option CfProperties :=
  Some (mkCf c k None).

(** ** Vocabulary of the properties *)

(** A code that names no inherited property of an object literal. *)
Definition plain_code (o : option string) : Prop :=
  match o with
  | Some c => ObjectPrototype !! c = None
  | None => True
  end.

(** A code that is absent or is not one of the table's own keys. *)
Definition unrecognised (table : gmap string value) (o : option string) : Prop :=
  match o with
  | Some c => table !! c = None
  | None => True
  end.

Definition plain_geo (request : Request) : Prop :=
  match cf request with
  | Some g => plain_code (country g) /\ plain_code (continent g)
  | None => True
  end.

(** The algorithm of [determineClosestServer] with the three tables as
    parameters, to state what it does whatever the tables hold (the comments
    of the source announce other hostnames for [americas] and [asia]). *)
Definition resolve (servers continents countries : gmap string value)
    (request : Request) : value :=
  match cf request with
  | None => Get servers "default"
  | Some cf =>
      if truthy (field (country cf))
         && truthy (GetV countries (field (country cf)))
      then GetV servers (GetV countries (field (country cf)))
      else if truthy (field (continent cf))
              && truthy (GetV continents (field (continent cf)))
      then GetV servers (GetV continents (field (continent cf)))
      else Get servers "default"
  end.

(** The tables as the comments of the source plan them. *)
Definition planned_servers : gmap string value :=
  object_literal
    [ ("europe", Str "eu.streammy.io");
      ("americas", Str "am.streammy.io");
      ("asia", Str "as.streammy.io");
      ("default", Str "eu.streammy.io") ].

(** [label] is the part of [s] before its first [sep] (all of [s] when it
    has none). *)
Definition delimited_prefix (sep : ascii) (label s : string) : Prop :=
  ~ In sep (list_ascii_of_string label)
  /\ (s = label \/ exists rest, s = label +:+ String sep rest).

(** The header value computed by [closestServer.split('.')[0]] on a string. *)
Definition region_label (dest : string) : string :=
  ToString (match split "." dest with
            | w :: _ => Str w
            | [] => Undefined
            end).

(** The header lines the handlers pass to [new Response] on a redirect: the
    three of both workers, and the two the logging worker adds. *)
Definition redirect_init (dest : string) (u : URL) : list (string * string) :=
  [ ("Location", "https://" +:+ dest +:+ pathname u +:+ search u);
    ("Cache-Control", "no-cache");
    ("X-Streammy-Region", region_label dest) ].

Definition geo_init (request : Request) : list (string * string) :=
  [ ("X-Streammy-Country", or_else (cf_field country request) "unknown");
    ("X-Streammy-Continent", or_else (cf_field continent request) "unknown") ].

(** The lines a response holds once the constructor has accepted them. *)
Definition delivered (init : list (string * string)) : list (string * string) :=
  map (fun line => (line.1, normalize_value line.2)) init.

Definition redirect_headers (dest : string) (u : URL) : list (string * string) :=
  delivered (redirect_init dest u).

Definition geo_headers (request : Request) : list (string * string) :=
  delivered (geo_init request).

(** A string without HTTP whitespace and without NUL. *)
Fixpoint plain_bytes (s : string) : bool :=
  match s with
  | EmptyString => true
  | String c rest =>
      negb (is_http_whitespace c) && negb (is_forbidden_byte c) && plain_bytes rest
  end.

(** What the URL serializer ensures of the path and the query (it
    percent-encodes control bytes and spaces): no NUL, tab, LF, CR or
    space. *)
Definition serialized (u : URL) : Prop :=
  plain_bytes (pathname u +:+ search u) = true.

(** A string of ASCII letters only. *)
Definition is_ascii_letter (c : ascii) : bool :=
  let n := nat_of_ascii c in
  ((65 <=? n)%nat && (n <=? 90)%nat) || ((97 <=? n)%nat && (n <=? 122)%nat).

Fixpoint letters (s : string) : bool :=
  match s with
  | EmptyString => true
  | String c rest => is_ascii_letter c && letters rest
  end.

(** A code made of exactly two ASCII letters, or no code. *)
Definition alpha2 (o : option string) : Prop :=
  match o with
  | Some c => String.length c = 2 /\ letters c = true
  | None => True
  end.

(** The handlers of the two workers complete alike: a throw is the same
    throw, a response of the plain one is a response of the logging one with
    the same status and body and at least the same header lines. *)
Definition extends (plain logged : Response) : Prop :=
  status logged = status plain
  /\ body logged = body plain
  /\ response_headers plain ⊆ response_headers logged.

(** The two entry points complete alike on a request: both throw the same
    error, or both answer and the answer of the logging worker extends the
    other. *)
Definition variants_agree (P : Platform) (request : Request) : Prop :=
  match (Plain.fetch P request).2, (Logged.fetch P request).2 with
  | Normal a, Normal b => extends a b
  | Throw e, Throw e' => e = e'
  | _, _ => False
  end.

(** A code that names a property inherited from [Object.prototype]. *)
Definition inherited_code (o : option string) : Prop :=
  match o with
  | Some c => is_Some (ObjectPrototype !! c)
  | None => False
  end.

(** A code of exactly two characters, or no code. *)
Definition two_letter (o : option string) : Prop :=
  match o with
  | Some c => String.length c = 2
  | None => True
  end.

(** The same runtime with another upstream behind the global [fetch]. *)
Definition with_upstream (P : Platform)
    (upstream : Request -> completion Response) : Platform :=
  mkPlatform (new_URL P) upstream (Date_toISOString P)
    (Date_now_start P) (Date_now_end P) (invalid_header_value P).

(** The line that closes the console output of the logging entry point. *)
Definition closing_line (P : Platform) (request : Request)
    (outcome : completion Response) : ConsoleEntry :=
  match outcome with
  | Normal _ =>
      console_log
        ("[PERFORMANCE] Request processed in "
         +:+ pretty (Date_now_end P - Date_now_start P)%Z +:+ "ms")
        None
  | Throw error =>
      console_error ("[ERROR] " +:+ message error) error
        (url request) (method request)
  end.

(** ** Property reads on the tables *)

(** Case analysis on the own entry of an object literal that a successful
    lookup [H] has found; [tac] closes each case. *)
Ltac each_entry H tac :=
  apply elem_of_list_to_map_2 in H;
  repeat (apply elem_of_cons in H as [H | H]; [ injection H as -> ->; tac | ]);
  by apply elem_of_nil in H.

Lemma Get_own (o : gmap string value) k v : o !! k = Some v -> Get o k = v.
Proof. intros H. unfold Get. by rewrite H. Qed.

Lemma Get_missing (o : gmap string value) k :
  o !! k = None -> ObjectPrototype !! k = None -> Get o k = Undefined.
Proof. intros H1 H2. unfold Get. by rewrite H1, H2. Qed.

Lemma Get_inherited (o : gmap string value) k v :
  o !! k = None -> ObjectPrototype !! k = Some v -> Get o k = v.
Proof. intros H1 H2. unfold Get. by rewrite H1, H2. Qed.

Lemma COUNTRY_OVERRIDES_own c v :
  COUNTRY_OVERRIDES !! c = Some v -> v = Str "europe" \/ v = Str "asia".
Proof.
  intros H. each_entry H ltac:(auto).
Qed.

Lemma CONTINENT_TO_REGION_own c v :
  CONTINENT_TO_REGION !! c = Some v ->
  v = Str "europe" \/ v = Str "americas" \/ v = Str "asia".
Proof.
  intros H. each_entry H ltac:(auto).
Qed.

(** What a read can inherit is never a string. *)
Lemma ObjectPrototype_inherited k v :
  ObjectPrototype !! k = Some v ->
  truthy v = true /\ RTMP_SERVERS !! ToString v = None
  /\ ObjectPrototype !! ToString v = None.
Proof.
  intros H. each_entry H ltac:(vm_compute; auto).
Qed.

(** No table has an inherited property name among its own keys. *)
Lemma inherited_not_own k v :
  ObjectPrototype !! k = Some v ->
  COUNTRY_OVERRIDES !! k = None /\ CONTINENT_TO_REGION !! k = None.
Proof.
  intros H. each_entry H ltac:(vm_compute; auto).
Qed.

(** Every inherited property name is longer than a two-letter code. *)
Lemma two_letter_not_inherited k :
  String.length k = 2 -> ObjectPrototype !! k = None.
Proof.
  intros Hlen. destruct (ObjectPrototype !! k) as [v|] eqn:H; [ | done ].
  each_entry H ltac:(discriminate Hlen).
Qed.

Lemma RTMP_SERVERS_region v :
  v = Str "europe" \/ v = Str "americas" \/ v = Str "asia" ->
  truthy v = true /\ RTMP_SERVERS !! ToString v = Some (Str "eu.streammy.io").
Proof. intros [-> | [-> | ->]]; vm_compute; auto. Qed.

Lemma RTMP_SERVERS_default : RTMP_SERVERS !! "default" = Some (Str "eu.streammy.io").
Proof. vm_compute. reflexivity. Qed.

(** ** The two guarded lookups of [determineClosestServer] *)

Section GuardedLookup.
Variable table : gmap string value.

Lemma guard_unrecognised o :
  unrecognised table o -> plain_code o ->
  truthy (field o) && truthy (GetV table (field o)) = false.
Proof.
  destruct o as [c|]; simpl; [ | done ].
  intros Hown Hproto. unfold GetV. simpl.
  rewrite (Get_missing _ _ Hown Hproto). simpl. apply andb_false_r.
Qed.

Lemma guard_inherited c v :
  table !! c = None -> ObjectPrototype !! c = Some v ->
  truthy (field (Some c)) && truthy (GetV table (field (Some c))) = true
  /\ GetV RTMP_SERVERS (GetV table (field (Some c))) = Undefined.
Proof.
  intros Hown Hproto.
  destruct (ObjectPrototype_inherited _ _ Hproto) as (Ht & Hr & Hp).
  unfold GetV. simpl. rewrite (Get_inherited _ _ _ Hown Hproto), Ht.
  split; [ | by apply Get_missing ].
  rewrite andb_true_r. destruct (String.eqb_spec c ""); [ | done ].
  subst c. vm_compute in Hproto. discriminate.
Qed.

Lemma guard_own c v :
  table !! c = Some v -> table !! "" = None ->
  v = Str "europe" \/ v = Str "americas" \/ v = Str "asia" ->
  truthy (field (Some c)) && truthy (GetV table (field (Some c))) = true
  /\ GetV RTMP_SERVERS (GetV table (field (Some c))) = Str "eu.streammy.io"
  /\ exists r, v = Str r /\ RTMP_SERVERS !! r = Some (Str "eu.streammy.io").
Proof.
  intros Hown Hempty Hv.
  destruct (RTMP_SERVERS_region _ Hv) as (Ht & Hr).
  unfold GetV. simpl. rewrite (Get_own _ _ _ Hown), Ht.
  split; [ | split ].
  - rewrite andb_true_r. destruct (String.eqb_spec c ""); [ | done ].
    subst c. congruence.
  - by apply Get_own.
  - destruct Hv as [-> | [-> | ->]]; eauto.
Qed.

End GuardedLookup.

Lemma COUNTRY_OVERRIDES_guard c v :
  COUNTRY_OVERRIDES !! c = Some v ->
  truthy (field (Some c)) && truthy (GetV COUNTRY_OVERRIDES (field (Some c))) = true
  /\ GetV RTMP_SERVERS (GetV COUNTRY_OVERRIDES (field (Some c))) = Str "eu.streammy.io"
  /\ exists r, v = Str r /\ RTMP_SERVERS !! r = Some (Str "eu.streammy.io").
Proof.
  intros H. apply (guard_own _ _ _ H); [ by vm_compute | ].
  destruct (COUNTRY_OVERRIDES_own _ _ H) as [-> | ->]; auto.
Qed.

Lemma CONTINENT_TO_REGION_guard c v :
  CONTINENT_TO_REGION !! c = Some v ->
  truthy (field (Some c)) && truthy (GetV CONTINENT_TO_REGION (field (Some c))) = true
  /\ GetV RTMP_SERVERS (GetV CONTINENT_TO_REGION (field (Some c))) = Str "eu.streammy.io"
  /\ exists r, v = Str r /\ RTMP_SERVERS !! r = Some (Str "eu.streammy.io").
Proof.
  intros H. apply (guard_own _ _ _ H); [ by vm_compute | ].
  by apply CONTINENT_TO_REGION_own in H.
Qed.

(** ** The algorithm on arbitrary tables *)

Section AnyTables.
Variables servers continents countries : gmap string value.

Lemma truthy_Str s : s <> "" -> truthy (Str s) = true.
Proof. intros H. simpl. by destruct (String.eqb_spec s ""). Qed.

Lemma resolve_absent request :
  cf request = None ->
  resolve servers continents countries request = Get servers "default".
Proof. intros H. unfold resolve. by rewrite H. Qed.

Lemma resolve_country request g c r :
  cf request = Some g -> country g = Some c -> c <> "" ->
  countries !! c = Some (Str r) -> r <> "" ->
  resolve servers continents countries request = Get servers r.
Proof.
  intros Hcf Hc Hne Hr Hrne. unfold resolve. rewrite Hcf, Hc.
  unfold GetV. cbn [field ToString]. rewrite (Get_own _ _ _ Hr).
  by rewrite !truthy_Str.
Qed.

Lemma resolve_continent request g k r :
  cf request = Some g ->
  unrecognised countries (country g) -> plain_code (country g) ->
  continent g = Some k -> k <> "" ->
  continents !! k = Some (Str r) -> r <> "" ->
  resolve servers continents countries request = Get servers r.
Proof.
  intros Hcf Hun Hpl Hk Hne Hr Hrne. unfold resolve. rewrite Hcf.
  rewrite (guard_unrecognised _ _ Hun Hpl), Hk.
  unfold GetV. cbn [field ToString]. rewrite (Get_own _ _ _ Hr).
  by rewrite !truthy_Str.
Qed.

Lemma resolve_fallback request g :
  cf request = Some g ->
  unrecognised countries (country g) -> plain_code (country g) ->
  unrecognised continents (continent g) -> plain_code (continent g) ->
  resolve servers continents countries request = Get servers "default".
Proof.
  intros Hcf Hc Hpc Hk Hpk. unfold resolve. rewrite Hcf.
  by rewrite (guard_unrecognised _ _ Hc Hpc), (guard_unrecognised _ _ Hk Hpk).
Qed.

End AnyTables.

Lemma determineClosestServer_resolve request :
  determineClosestServer request
  = resolve RTMP_SERVERS CONTINENT_TO_REGION COUNTRY_OVERRIDES request.
Proof. reflexivity. Qed.

(** ** The decision function on descriptors without inherited names *)

Lemma determineClosestServer_absent request :
  cf request = None -> determineClosestServer request = Str "eu.streammy.io".
Proof.
  intros H. unfold determineClosestServer. rewrite H.
  apply Get_own, RTMP_SERVERS_default.
Qed.

Lemma determineClosestServer_continent request g k v :
  cf request = Some g ->
  unrecognised COUNTRY_OVERRIDES (country g) -> plain_code (country g) ->
  continent g = Some k -> CONTINENT_TO_REGION !! k = Some v ->
  exists r, v = Str r /\ RTMP_SERVERS !! r = Some (Str "eu.streammy.io")
            /\ determineClosestServer request = Str "eu.streammy.io".
Proof.
  intros Hcf Hun Hplain Hk Hv. unfold determineClosestServer. rewrite Hcf.
  rewrite (guard_unrecognised _ _ Hun Hplain), Hk.
  destruct (CONTINENT_TO_REGION_guard _ _ Hv) as (-> & -> & r & -> & Hr).
  eauto.
Qed.

Lemma determineClosestServer_fallback request g :
  cf request = Some g ->
  unrecognised COUNTRY_OVERRIDES (country g) -> plain_code (country g) ->
  unrecognised CONTINENT_TO_REGION (continent g) -> plain_code (continent g) ->
  determineClosestServer request = Str "eu.streammy.io".
Proof.
  intros Hcf Hc Hpc Hk Hpk. unfold determineClosestServer. rewrite Hcf.
  rewrite (guard_unrecognised _ _ Hc Hpc), (guard_unrecognised _ _ Hk Hpk).
  apply Get_own, RTMP_SERVERS_default.
Qed.

Lemma determineClosestServer_country request g c v :
  cf request = Some g -> country g = Some c -> COUNTRY_OVERRIDES !! c = Some v ->
  exists r, v = Str r /\ RTMP_SERVERS !! r = Some (Str "eu.streammy.io")
            /\ determineClosestServer request = Str "eu.streammy.io".
Proof.
  intros Hcf Hc Hv. unfold determineClosestServer. rewrite Hcf, Hc.
  destruct (COUNTRY_OVERRIDES_guard _ _ Hv) as (-> & -> & r & -> & Hr).
  eauto.
Qed.

Lemma determineClosestServer_plain request :
  plain_geo request -> determineClosestServer request = Str "eu.streammy.io".
Proof.
  unfold plain_geo. destruct (cf request) as [g|] eqn:Hcf;
    [ | intros _; by apply determineClosestServer_absent ].
  intros [Hpc Hpk].
  assert (Hrest : unrecognised COUNTRY_OVERRIDES (country g) ->
                  determineClosestServer request = Str "eu.streammy.io").
  { intros Hun. destruct (continent g) as [k|] eqn:Hk.
    - destruct (CONTINENT_TO_REGION !! k) as [w|] eqn:Hw.
      + by destruct (determineClosestServer_continent _ _ _ _ Hcf Hun Hpc Hk Hw)
          as (? & _ & _ & ?).
      + apply (determineClosestServer_fallback _ g); rewrite ?Hk; auto.
    - apply (determineClosestServer_fallback _ g); rewrite ?Hk; simpl; auto. }
  destruct (country g) as [c|] eqn:Hc; [ | by apply Hrest ].
  destruct (COUNTRY_OVERRIDES !! c) as [v|] eqn:Hv; [ | by apply Hrest ].
  by destruct (determineClosestServer_country _ _ _ _ Hcf Hc Hv) as (? & _ & _ & ?).
Qed.

(** On every input the result is the one hostname or [undefined]. *)
Lemma determineClosestServer_range request :
  determineClosestServer request = Str "eu.streammy.io"
  \/ determineClosestServer request = Undefined.
Proof.
  destruct (cf request) as [g|] eqn:Hcf;
    [ | left; by apply determineClosestServer_absent ].
  assert (Hk : forall (Hun : unrecognised COUNTRY_OVERRIDES (country g))
                      (Hpl : plain_code (country g)),
             determineClosestServer request = Str "eu.streammy.io"
             \/ determineClosestServer request = Undefined).
  { intros Hun Hpl.
    destruct (continent g) as [k|] eqn:Hk.
    - destruct (CONTINENT_TO_REGION !! k) as [w|] eqn:Hw.
      + left. by destruct (determineClosestServer_continent _ _ _ _ Hcf Hun Hpl Hk Hw)
          as (? & _ & _ & ?).
      + destruct (ObjectPrototype !! k) as [p|] eqn:Hp.
        * right. unfold determineClosestServer. rewrite Hcf.
          rewrite (guard_unrecognised _ _ Hun Hpl), Hk.
          by destruct (guard_inherited _ _ _ Hw Hp) as [-> ->].
        * left. apply (determineClosestServer_fallback _ g); rewrite ?Hk; auto.
    - left. apply (determineClosestServer_fallback _ g); rewrite ?Hk; simpl; auto. }
  destruct (country g) as [c|] eqn:Hc; [ | by apply Hk ].
  destruct (COUNTRY_OVERRIDES !! c) as [v|] eqn:Hv.
  - left. by destruct (determineClosestServer_country _ _ _ _ Hcf Hc Hv) as (? & _ & _ & ?).
  - destruct (ObjectPrototype !! c) as [p|] eqn:Hp; [ | by apply Hk ].
    right. unfold determineClosestServer. rewrite Hcf, Hc.
    by destruct (guard_inherited _ _ _ Hv Hp) as [-> ->].
Qed.

(** The decision is [undefined] whenever a guard is passed by an inherited
    property: on the country, or on the continent once the country has been
    passed over. *)
Lemma determineClosestServer_inherited_country request g c :
  cf request = Some g -> country g = Some c ->
  is_Some (ObjectPrototype !! c) ->
  determineClosestServer request = Undefined.
Proof.
  intros Hcf Hc [v Hv]. unfold determineClosestServer. rewrite Hcf, Hc.
  destruct (inherited_not_own _ _ Hv) as [Hown _].
  by destruct (guard_inherited _ _ _ Hown Hv) as [-> ->].
Qed.

Lemma determineClosestServer_inherited_continent request g k :
  cf request = Some g ->
  unrecognised COUNTRY_OVERRIDES (country g) -> plain_code (country g) ->
  continent g = Some k ->
  is_Some (ObjectPrototype !! k) ->
  determineClosestServer request = Undefined.
Proof.
  intros Hcf Hun Hpl Hk [v Hv]. unfold determineClosestServer. rewrite Hcf.
  rewrite (guard_unrecognised _ _ Hun Hpl), Hk.
  destruct (inherited_not_own _ _ Hv) as [_ Hown].
  by destruct (guard_inherited _ _ _ Hown Hv) as [-> ->].
Qed.

(** ** The region label *)

Lemma split_head sep s :
  exists w ws, split sep s = w :: ws /\ delimited_prefix sep w s.
Proof.
  induction s as [ | c rest (w & ws & IH & Hnot & Hshape) ]; simpl.
  - exists "", []. repeat split; auto.
  - destruct (Ascii.eqb_spec c sep) as [-> | Hne].
    + exists "", (split sep rest). repeat split; auto.
      right. by exists rest.
    + rewrite IH. exists (String c w), ws. repeat split.
      * simpl. intros [Heq | Hin]; [ by symmetry in Heq | done ].
      * destruct Hshape as [-> | (rest' & ->)]; [ by left | right ].
        by exists rest'.
Qed.

Lemma region_label_prefix dest : delimited_prefix "." (region_label dest) dest.
Proof.
  unfold region_label. simpl.
  by destruct (split_head "." dest) as (w & ws & -> & H).
Qed.

Lemma split_dot_first_Str dest :
  split_dot_first (Str dest) = Normal (Str (region_label dest)).
Proof.
  unfold region_label. simpl.
  by destruct (split_head "." dest) as (w & ws & -> & _).
Qed.

(** ** Header values and the Response constructor *)

Lemma is_header_value_app a b :
  is_header_value (a +:+ b) = is_header_value a && is_header_value b.
Proof.
  induction a as [ | c a IH ]; simpl; [ done | ].
  rewrite IH. by rewrite andb_assoc.
Qed.

Lemma is_header_value_strip_leading v :
  is_header_value v = true -> is_header_value (strip_leading v) = true.
Proof.
  induction v as [ | c v IH ]; simpl; [ done | ].
  intros [Hc Hv]%andb_true_iff. destruct (is_http_whitespace c); [ by apply IH | ].
  simpl. by rewrite Hc, Hv.
Qed.

Lemma is_header_value_strip_trailing v :
  is_header_value v = true -> is_header_value (strip_trailing v) = true.
Proof.
  induction v as [ | c v IH ]; simpl; [ done | ].
  intros [Hc Hv]%andb_true_iff. specialize (IH Hv).
  destruct (strip_trailing v) as [ | c' kept ].
  - destruct (is_http_whitespace c); simpl; [ done | by rewrite Hc ].
  - change (is_header_value (String c (String c' kept)) = true).
    simpl in *. by rewrite Hc, IH.
Qed.

Lemma is_header_value_normalize v :
  is_header_value v = true -> is_header_value (normalize_value v) = true.
Proof.
  intros H. by apply is_header_value_strip_trailing, is_header_value_strip_leading.
Qed.

Lemma plain_bytes_app a b :
  plain_bytes (a +:+ b) = plain_bytes a && plain_bytes b.
Proof.
  induction a as [ | c a IH ]; simpl; [ done | ].
  rewrite IH. by rewrite !andb_assoc.
Qed.

Lemma plain_bytes_strip_trailing s : plain_bytes s = true -> strip_trailing s = s.
Proof.
  induction s as [ | c s IH ]; simpl; [ done | ].
  intros [[Hw _]%andb_true_iff Hs]%andb_true_iff. rewrite (IH Hs).
  apply negb_true_iff in Hw. rewrite Hw. by destruct s.
Qed.

(** A string of plain bytes is stored as it is. *)
Lemma plain_bytes_header_value s :
  plain_bytes s = true -> normalize_value s = s /\ is_header_value s = true.
Proof.
  intros Hs. split.
  - unfold normalize_value.
    replace (strip_leading s) with s; [ by apply plain_bytes_strip_trailing | ].
    destruct s as [ | c s ]; simpl; [ done | ].
    simpl in Hs. apply andb_true_iff in Hs as [[Hw _]%andb_true_iff _].
    apply negb_true_iff in Hw. by rewrite Hw.
  - induction s as [ | c s IH ]; simpl; [ done | ].
    simpl in Hs. apply andb_true_iff in Hs as [[_ Hf]%andb_true_iff Hs].
    rewrite Hf. by apply IH.
Qed.

Lemma letter_is_plain_byte c :
  is_ascii_letter c = true ->
  is_http_whitespace c = false /\ is_forbidden_byte c = false.
Proof.
  destruct c as [[] [] [] [] [] [] [] []]; vm_compute; intros H;
    (discriminate H || auto).
Qed.

Lemma letters_plain_bytes s : letters s = true -> plain_bytes s = true.
Proof.
  induction s as [ | c s IH ]; simpl; [ done | ].
  intros [Hc Hs]%andb_true_iff.
  destruct (letter_is_plain_byte _ Hc) as [-> ->]. by apply IH.
Qed.

Section HeadersFill.
Variable P : Platform.

Lemma Headers_fill_app a b :
  Headers_fill P (a ++ b)%list
  = match Headers_fill P a with
    | Normal ha =>
        match Headers_fill P b with
        | Normal hb => Normal (ha ++ hb)%list
        | Throw e => Throw e
        end
    | Throw e => Throw e
    end.
Proof.
  induction a as [ | [k v] a IH ]; simpl.
  - by destruct (Headers_fill P b).
  - destruct (is_header_value (normalize_value v)); [ | done ].
    rewrite IH. destruct (Headers_fill P a); [ | done ].
    by destruct (Headers_fill P b).
Qed.

Lemma Headers_fill_Normal init hs :
  Headers_fill P init = Normal hs -> hs = delivered init.
Proof.
  revert hs. induction init as [ | [k v] init IH ]; simpl; intros hs H.
  - by injection H as <-.
  - destruct (is_header_value (normalize_value v)); [ | done ].
    destruct (Headers_fill P init) as [hs' | e]; [ | done ].
    injection H as <-. by rewrite (IH hs').
Qed.

Lemma Headers_fill_Throw init e :
  Headers_fill P init = Throw e ->
  exists k v, In (k, v) init
              /\ is_header_value (normalize_value v) = false
              /\ e = invalid_header_value P k v.
Proof.
  induction init as [ | [k v] init IH ]; simpl; intros H; [ done | ].
  destruct (is_header_value (normalize_value v)) eqn:Hv.
  - destruct (Headers_fill P init) as [hs' | e']; [ done | ].
    injection H as ->. destruct (IH eq_refl) as (k' & v' & Hin & Hbad & He).
    exists k', v'. auto.
  - injection H as <-. exists k, v. auto.
Qed.

Lemma Headers_fill_valid init :
  Forall (fun line => is_header_value (normalize_value line.2) = true) init ->
  Headers_fill P init = Normal (delivered init).
Proof.
  induction 1 as [ | [k v] init Hv _ IH ]; simpl; [ done | ].
  simpl in Hv. by rewrite Hv, IH.
Qed.

(** The error response of the logging worker is always accepted. *)
Lemma new_Response_error text :
  new_Response P (Some text) 500 [ ("Content-Type", "text/plain") ]
  = Normal (mkResponse 500 (Some text) [ ("Content-Type", "text/plain") ]).
Proof. reflexivity. Qed.

(** The three lines of a redirect to the hostname of the tables are
    accepted when the path and the query come from the URL serializer. *)
Lemma redirect_headers_serialized u :
  serialized u ->
  redirect_headers "eu.streammy.io" u
  = [ ("Location", "https://eu.streammy.io" +:+ pathname u +:+ search u);
      ("Cache-Control", "no-cache");
      ("X-Streammy-Region", "eu") ]
  /\ is_header_value ("https://eu.streammy.io" +:+ pathname u +:+ search u) = true.
Proof.
  intros Hu.
  assert (Hl : plain_bytes ("https://eu.streammy.io" +:+ (pathname u +:+ search u)) = true).
  { rewrite plain_bytes_app. by rewrite Hu. }
  destruct (plain_bytes_header_value _ Hl) as [Hn Hv].
  split; [ | exact Hv ].
  unfold redirect_headers, delivered, redirect_init. cbn [map fst snd].
  change ("https://" +:+ "eu.streammy.io" +:+ pathname u +:+ search u)
    with ("https://eu.streammy.io" +:+ (pathname u +:+ search u)).
  by rewrite Hn.
Qed.

Lemma redirect_init_valid u :
  serialized u ->
  Headers_fill P (redirect_init "eu.streammy.io" u)
  = Normal (redirect_headers "eu.streammy.io" u).
Proof.
  intros Hu. apply Headers_fill_valid.
  constructor;
    [ | constructor; [ reflexivity | constructor; [ reflexivity | constructor ] ] ].
  cbn [snd]. apply is_header_value_normalize.
  by destruct (redirect_headers_serialized _ Hu) as [_ Hv].
Qed.

End HeadersFill.

(** ** The two paths of the handlers *)

Ltac run_handler :=
  unfold Plain.fetch, Logged.fetch, Plain.handleRequest, Logged.handleRequest,
    try_catch, mbind, M_bind, mret, M_ret, lift, emit.

Section HandlerPaths.
Variable P : Platform.
Variable request : Request.
Variable u : URL.
Hypothesis Hurl : new_URL P (url request) = Normal u.

Lemma Plain_passthrough :
  hostname u <> "live.streammy.io" ->
  Plain.handleRequest P request = ([], global_fetch P request).
Proof.
  intros Hne%String.eqb_neq. run_handler. by rewrite Hurl, Hne.
Qed.

Lemma Logged_passthrough :
  hostname u <> "live.streammy.io" ->
  (Logged.handleRequest P request).2 = global_fetch P request.
Proof.
  intros Hne%String.eqb_neq. run_handler. by rewrite Hurl, Hne.
Qed.

Lemma Plain_redirect dest :
  hostname u = "live.streammy.io" ->
  determineClosestServer request = Str dest ->
  Plain.handleRequest P request
  = ([], new_Response P None 302 (redirect_init dest u)).
Proof.
  intros Heq%String.eqb_eq Hdest. run_handler.
  by rewrite Hurl, Heq, Hdest, split_dot_first_Str.
Qed.

Lemma Logged_redirect dest :
  hostname u = "live.streammy.io" ->
  determineClosestServer request = Str dest ->
  (Logged.handleRequest P request).2
  = new_Response P None 302 (redirect_init dest u ++ geo_init request)%list.
Proof.
  intros Heq%String.eqb_eq Hdest. run_handler.
  by rewrite Hurl, Heq, Hdest, split_dot_first_Str.
Qed.

Lemma Logged_redirect_console dest :
  hostname u = "live.streammy.io" ->
  determineClosestServer request = Str dest ->
  exists d,
    (Logged.handleRequest P request).1
    = [console_log ("[GEO-ROUTING] Redirecting to " +:+ dest) (Some d)]
    /\ log_url d = url request
    /\ log_selectedServer d = Some (Str dest)
    /\ log_serverRegion d = Some (Str (region_label dest))
    /\ log_country d = or_else (cf_field country request) "unknown"
    /\ log_continent d = or_else (cf_field continent request) "unknown".
Proof.
  intros Heq%String.eqb_eq Hdest. run_handler.
  rewrite Hurl, Heq, Hdest, split_dot_first_Str.
  match goal with
  | |- context [new_Response ?a ?b ?c ?d] => destruct (new_Response a b c d)
  end; eexists; (split; [ reflexivity | by repeat split ]).
Qed.

Lemma handleRequest_unresolved :
  hostname u = "live.streammy.io" ->
  determineClosestServer request = Undefined ->
  (Plain.handleRequest P request).2
  = Throw (TypeError "Cannot read properties of undefined (reading 'split')")
  /\ (Logged.handleRequest P request).2
     = Throw (TypeError "Cannot read properties of undefined (reading 'split')").
Proof.
  intros Heq%String.eqb_eq Hdest. run_handler.
  by rewrite Hurl, Heq, Hdest.
Qed.

End HandlerPaths.

(** On the target hostname the logging handler redirects to the one
    hostname of the tables, or throws: on the missing hostname, or on a line
    that the Headers constructor refuses. *)
Lemma Logged_target_hostname P request u :
  new_URL P (url request) = Normal u ->
  hostname u = "live.streammy.io" ->
  (Logged.handleRequest P request).2
  = Normal (mkResponse 302 None
              (redirect_headers "eu.streammy.io" u ++ geo_headers request))
  \/ exists e, (Logged.handleRequest P request).2 = Throw e.
Proof.
  intros Hurl Heq. destruct (determineClosestServer_range request) as [Hd | Hd].
  - rewrite (Logged_redirect _ _ _ Hurl _ Heq Hd). unfold new_Response.
    destruct (Headers_fill P _) as [hs | e] eqn:Hfill; [ left | right; by exists e ].
    rewrite (Headers_fill_Normal _ _ _ Hfill).
    unfold redirect_headers, geo_headers, delivered. by rewrite map_app.
  - right. destruct (handleRequest_unresolved _ _ _ Hurl Heq Hd) as [_ ->]. by eexists.
Qed.

(** The entry point of the logging worker turns a throw of its handler into
    the 500 response and lets a response through. *)
Lemma Logged_fetch_outcome P request :
  (Logged.fetch P request).2
  = Normal (match (Logged.handleRequest P request).2 with
            | Normal response => response
            | Throw error => internal_error_response error
            end).
Proof.
  unfold Logged.fetch, try_catch, mbind, M_bind, mret, M_ret, emit, lift.
  by destruct (Logged.handleRequest P request) as [out [response | error]].
Qed.

(** The handlers of the two workers side by side: a throw of the plain one
    is the same throw of the logging one; a response of the plain one is
    extended by the logging one, unless one of the two lines it adds is
    refused by the Headers constructor. *)
Lemma handleRequest_variants P request :
  match (Plain.handleRequest P request).2 with
  | Normal a =>
      (exists b, (Logged.handleRequest P request).2 = Normal b /\ extends a b)
      \/ (exists k v, In (k, v) (geo_init request)
                      /\ is_header_value (normalize_value v) = false
                      /\ (Logged.handleRequest P request).2
                         = Throw (invalid_header_value P k v))
  | Throw e => (Logged.handleRequest P request).2 = Throw e
  end.
Proof.
  destruct (new_URL P (url request)) as [u | e] eqn:Hurl;
    [ | run_handler; by rewrite Hurl ].
  destruct (String.eqb_spec (hostname u) "live.streammy.io") as [Heq | Hne].
  - destruct (determineClosestServer_range request) as [Hd | Hd].
    + rewrite (Plain_redirect _ _ _ Hurl _ Heq Hd), (Logged_redirect _ _ _ Hurl _ Heq Hd).
      cbn [snd]. unfold new_Response. rewrite Headers_fill_app.
      destruct (Headers_fill P (redirect_init _ u)) as [h3 | e]; [ | done ].
      destruct (Headers_fill P (geo_init request)) as [hg | e] eqn:Hgeo.
      * left. eexists. split; [ reflexivity | ].
        split; [ done | split; [ done | ] ].
        cbn [response_headers]. by apply list_subseteq_app_l.
      * right. destruct (Headers_fill_Throw _ _ _ Hgeo) as (k & v & Hin & Hbad & ->).
        by exists k, v.
    + destruct (handleRequest_unresolved _ _ _ Hurl Heq Hd) as [-> ->]. done.
  - rewrite (Plain_passthrough _ _ _ Hurl Hne), (Logged_passthrough _ _ _ Hurl Hne).
    simpl. destruct (global_fetch P request); [ | done ].
    left. eexists. split; [ done | ]. by repeat split.
Qed.

(** A redirect of the logging handler is returned when the path and query
    come from the URL serializer and the two detected values are accepted
    by the Headers constructor. *)
Lemma Logged_redirect_accepted P request u dest :
  new_URL P (url request) = Normal u ->
  hostname u = "live.streammy.io" ->
  determineClosestServer request = Str dest ->
  serialized u ->
  is_header_value (normalize_value (or_else (cf_field country request) "unknown")) = true ->
  is_header_value (normalize_value (or_else (cf_field continent request) "unknown")) = true ->
  dest = "eu.streammy.io"
  /\ (Logged.handleRequest P request).2
     = Normal (mkResponse 302 None
                 (redirect_headers "eu.streammy.io" u ++ geo_headers request)).
Proof.
  intros Hurl Heq Hdest Hu Hc Hk.
  assert (dest = "eu.streammy.io") as ->.
  { destruct (determineClosestServer_range request) as [Hd | Hd]; congruence. }
  split; [ done | ].
  rewrite (Logged_redirect _ _ _ Hurl _ Heq Hdest). unfold new_Response.
  rewrite Headers_fill_app, (redirect_init_valid _ _ Hu).
  rewrite (Headers_fill_valid P (geo_init request)); [ done | ].
  constructor; [ done | constructor; [ done | constructor ] ].
Qed.

Lemma determineClosestServer_two_letter request g :
  cf request = Some g ->
  (forall c, country g = Some c -> String.length c = 2) ->
  (forall k, continent g = Some k -> String.length k = 2) ->
  determineClosestServer request = Str "eu.streammy.io".
Proof.
  intros Hcf Hc Hk. apply determineClosestServer_plain.
  unfold plain_geo. rewrite Hcf. split.
  - destruct (country g) as [c|]; simpl; [ | done ].
    by apply two_letter_not_inherited, Hc.
  - destruct (continent g) as [k|]; simpl; [ | done ].
    by apply two_letter_not_inherited, Hk.
Qed.

Lemma region_label_eu : region_label "eu.streammy.io" = "eu".
Proof. reflexivity. Qed.

(** ** Resolution by country *)

(** C1: when the country of the descriptor is one of the own keys of
    [COUNTRY_OVERRIDES], the decision is the [RTMP_SERVERS] entry of the
    region that key maps to, with no condition on the continent. *)
Theorem country_override_selects_region_entry request g c :
  cf request = Some g ->
  country g = Some c ->
  is_Some (COUNTRY_OVERRIDES !! c) ->
  exists r h,
    COUNTRY_OVERRIDES !! c = Some (Str r)
    /\ RTMP_SERVERS !! r = Some (Str h)
    /\ determineClosestServer request = Str h.
Proof.
  intros Hcf Hc [v Hv].
  destruct (determineClosestServer_country _ _ _ _ Hcf Hc Hv) as (r & -> & Hr & Hd).
  by exists r, "eu.streammy.io".
Qed.

Lemma country_override_selects_region_entry_witness :
  exists r h,
    COUNTRY_OVERRIDES !! "TR" = Some (Str r)
    /\ RTMP_SERVERS !! r = Some (Str h)
    /\ determineClosestServer (live_request (geo (Some "TR") (Some "AS"))) = Str h.
Proof.
  apply (country_override_selects_region_entry
           (live_request (geo (Some "TR") (Some "AS")))
           (mkCf (Some "TR") (Some "AS") None) "TR").
  - reflexivity.
  - reflexivity.
  - exists (Str "europe"). vm_compute. reflexivity.
Defined.

(** ** Pass-through *)

(** C5: when the hostname of the request URL is not [live.streammy.io],
    both handlers complete exactly as the upstream [fetch] of the same
    request does: the response is the upstream one, with its status and
    headers as they are. *)
Theorem non_target_passthrough_verbatim P request u :
  new_URL P (url request) = Normal u ->
  hostname u <> "live.streammy.io" ->
  (Plain.handleRequest P request).2 = global_fetch P request
  /\ (Logged.handleRequest P request).2 = global_fetch P request.
Proof.
  intros Hurl Hne. split.
  - by rewrite (Plain_passthrough _ _ _ Hurl Hne).
  - by apply (Logged_passthrough _ _ _ Hurl Hne).
Qed.

Lemma non_target_passthrough_verbatim_witness :
  (Plain.handleRequest example_platform other_request).2
  = Normal (mkResponse 200 (Some "upstream page") [("Content-Type", "text/html")])
  /\ (Logged.handleRequest example_platform other_request).2
     = Normal (mkResponse 200 (Some "upstream page") [("Content-Type", "text/html")]).
Proof.
  apply (non_target_passthrough_verbatim example_platform other_request
           (mkURL "other.streammy.io" "/anything" "")).
  - reflexivity.
  - simpl. discriminate.
Defined.

(** ** Diagnostic headers *)

(** C8, as stated, fails on a detected code with surrounding whitespace:
    the country header of the response is the code without it, not the raw
    code. *)
Lemma raw_country_code_not_delivered :
  exists response,
    (Logged.handleRequest example_platform
       (live_request (geo (Some " FR") None))).2 = Normal response
    /\ cf_field country (live_request (geo (Some " FR") None)) = Some " FR"
    /\ Headers_get (response_headers response) "X-Streammy-Country" = Some "FR"
    /\ Some "FR" <> Some " FR".
Proof.
  eexists. split; [ vm_compute; reflexivity | ].
  split; [ reflexivity | ]. split; [ reflexivity | discriminate ].
Qed.

(** C8, amended: on the redirect path of the logging worker (target
    hostname, a hostname [dest] decided, path and query as the URL
    serializer gives them), when the detected country and continent hold no
    NUL, LF or CR once their surrounding whitespace is removed, the response
    carries [X-Streammy-Region] with the part of [dest] before its first
    dot, and [X-Streammy-Country] and [X-Streammy-Continent] with the
    detected code without its surrounding whitespace, [unknown] standing for
    a code that is missing (no descriptor, no field, or an empty string). *)
Theorem redirect_diagnostic_headers P request u dest :
  new_URL P (url request) = Normal u ->
  hostname u = "live.streammy.io" ->
  determineClosestServer request = Str dest ->
  serialized u ->
  is_header_value (normalize_value (or_else (cf_field country request) "unknown")) = true ->
  is_header_value (normalize_value (or_else (cf_field continent request) "unknown")) = true ->
  exists response label,
    (Logged.handleRequest P request).2 = Normal response
    /\ Headers_get (response_headers response) "X-Streammy-Region" = Some label
    /\ delimited_prefix "." label dest
    /\ Headers_get (response_headers response) "X-Streammy-Country"
       = Some (normalize_value
                 (match cf_field country request with
                  | Some c => if String.eqb c "" then "unknown" else c
                  | None => "unknown"
                  end))
    /\ Headers_get (response_headers response) "X-Streammy-Continent"
       = Some (normalize_value
                 (match cf_field continent request with
                  | Some k => if String.eqb k "" then "unknown" else k
                  | None => "unknown"
                  end)).
Proof.
  intros Hurl Heq Hdest Hu Hc Hk.
  destruct (Logged_redirect_accepted _ _ _ _ Hurl Heq Hdest Hu Hc Hk) as [-> Hresp].
  eexists. exists "eu".
  split; [ exact Hresp | ].
  split; [ reflexivity | ].
  split; [ apply (region_label_prefix "eu.streammy.io") | ].
  split.
  - cbn. do 2 f_equal. unfold or_else.
    by destruct (cf_field country request) as [c|]; simpl;
      [ destruct (String.eqb c "") | ].
  - cbn. do 2 f_equal. unfold or_else.
    by destruct (cf_field continent request) as [k|]; simpl;
      [ destruct (String.eqb k "") | ].
Qed.

Lemma redirect_diagnostic_headers_witness :
  exists response label,
    (Logged.handleRequest example_platform
       (live_request (geo (Some " FR") None))).2 = Normal response
    /\ Headers_get (response_headers response) "X-Streammy-Region" = Some label
    /\ delimited_prefix "." label "eu.streammy.io"
    /\ Headers_get (response_headers response) "X-Streammy-Country" = Some "FR"
    /\ Headers_get (response_headers response) "X-Streammy-Continent" = Some "unknown".
Proof.
  apply (redirect_diagnostic_headers example_platform
           (live_request (geo (Some " FR") None))
           (mkURL "live.streammy.io" "/stream/abc" "?token=123") "eu.streammy.io").
  - reflexivity.
  - reflexivity.
  - vm_compute. reflexivity.
  - vm_compute. reflexivity.
  - vm_compute. reflexivity.
  - vm_compute. reflexivity.
Defined.

(** ** The error boundary *)

(** C6, as stated, fails on the plain worker: its entry point has no
    [catch], and the error of a URL that does not parse reaches the caller. *)
Lemma plain_entry_point_propagates :
  Plain.fetch example_platform malformed_request
  = ([], Throw (TypeError "Invalid URL"))
  /\ ~ (exists response,
          (Plain.fetch example_platform malformed_request).2 = Normal response).
Proof.
  split; [ reflexivity | ]. intros [response H]. discriminate H.
Qed.

(** C6, amended: the entry point of the logging worker never throws. It
    answers with the response of its handler, and when the handler throws it
    answers with status 500, the body [Internal Server Error: ] followed by
    the message of the error, and [Content-Type: text/plain]. The entry
    point of the plain worker completes as its handler does, throws
    included. *)
Theorem logged_entry_point_catches P request :
  (Logged.fetch P request).2
  = Normal (match (Logged.handleRequest P request).2 with
            | Normal response => response
            | Throw error =>
                mkResponse 500 (Some ("Internal Server Error: " +:+ message error))
                  [ ("Content-Type", "text/plain") ]
            end)
  /\ Plain.fetch P request = Plain.handleRequest P request.
Proof.
  split; [ | reflexivity ].
  unfold Logged.fetch, try_catch, mbind, M_bind, mret, M_ret, emit.
  destruct (Logged.handleRequest P request) as [out [response | error]].
  - reflexivity.
  - reflexivity.
Qed.

(** ** The two workers compared *)

(** C7, as stated, fails when the upstream [fetch] of a pass-through
    rejects: the plain worker lets the error out, the logging worker answers
    with a 500 response. *)
Lemma variants_diverge_on_error :
  (Plain.fetch example_platform down_request).2 = Throw (TypeError "fetch failed")
  /\ (Logged.fetch example_platform down_request).2
     = Normal (internal_error_response (TypeError "fetch failed"))
  /\ ~ variants_agree example_platform down_request.
Proof.
  split; [ reflexivity | split; [ reflexivity | ] ].
  intros H. exact H.
Qed.

(** C7, amended: where the plain worker answers, the logging worker answers
    with the same status and body and with every header line of the plain
    answer, unless the detected country or continent is refused as a header
    value (it still holds a NUL, LF or CR once its surrounding whitespace is
    removed), in which case the logging worker answers with the 500 response
    made from the error of the Headers constructor; where the plain worker
    throws, the logging worker answers with the 500 response made from that
    error. *)
Theorem logged_variant_extends_plain P request :
  match (Plain.fetch P request).2 with
  | Normal a =>
      (exists b, (Logged.fetch P request).2 = Normal b /\ extends a b)
      \/ (exists k v,
            In (k, v) [ ("X-Streammy-Country",
                         or_else (cf_field country request) "unknown");
                        ("X-Streammy-Continent",
                         or_else (cf_field continent request) "unknown") ]
            /\ is_header_value (normalize_value v) = false
            /\ (Logged.fetch P request).2
               = Normal (internal_error_response (invalid_header_value P k v)))
  | Throw e => (Logged.fetch P request).2 = Normal (internal_error_response e)
  end.
Proof.
  rewrite Logged_fetch_outcome. unfold Plain.fetch.
  pose proof (handleRequest_variants P request) as H.
  destruct (Plain.handleRequest P request).2 as [a | e].
  - destruct H as [(b & -> & Hext) | (k & v & Hin & Hbad & ->)].
    + left. by exists b.
    + right. by exists k, v.
  - by rewrite H.
Qed.

(** ** Codes that name an inherited property

    The guards [COUNTRY_OVERRIDES[cf.country]] and
    [CONTINENT_TO_REGION[cf.continent]] are plain property reads, so they
    also succeed on a name that the table only inherits from
    [Object.prototype]; the value read is then not a region, and
    [RTMP_SERVERS[region]] is [undefined]. *)

(** C2 at the descriptor [{ country: "constructor", continent: "EU" }]:
    the country is no key of [COUNTRY_OVERRIDES], the continent maps to
    [europe], whose entry is [eu.streammy.io], and the decision is
    [undefined]. *)
Theorem continent_fallback_lost_on_inherited_country :
  COUNTRY_OVERRIDES !! "constructor" = None
  /\ CONTINENT_TO_REGION !! "EU" = Some (Str "europe")
  /\ RTMP_SERVERS !! "europe" = Some (Str "eu.streammy.io")
  /\ determineClosestServer (live_request (geo (Some "constructor") (Some "EU")))
     = Undefined.
Proof. vm_compute. auto. Qed.

(** C3 at the descriptor [{ country: "ZZ", continent: "hasOwnProperty" }]:
    neither code is a key of its table, the default entry is
    [eu.streammy.io], and the decision is [undefined]; the plain worker then
    throws on it. *)
Theorem unknown_codes_miss_default :
  unrecognised COUNTRY_OVERRIDES (Some "ZZ")
  /\ unrecognised CONTINENT_TO_REGION (Some "hasOwnProperty")
  /\ Get RTMP_SERVERS "default" = Str "eu.streammy.io"
  /\ determineClosestServer (live_request (geo (Some "ZZ") (Some "hasOwnProperty")))
     = Undefined
  /\ (Plain.fetch example_platform
        (live_request (geo (Some "ZZ") (Some "hasOwnProperty")))).2
     = Throw (TypeError "Cannot read properties of undefined (reading 'split')").
Proof. vm_compute. auto. Qed.

(** C4 at a request for [live.streammy.io] with the descriptor
    [{ country: "toString" }]: the URL has the target hostname, and both
    handlers throw instead of returning the 302 response. *)
Theorem redirect_throws_on_unresolved_server :
  new_URL example_platform (url (live_request (geo (Some "toString") None)))
  = Normal (mkURL "live.streammy.io" "/stream/abc" "?token=123")
  /\ (Plain.handleRequest example_platform
        (live_request (geo (Some "toString") None))).2
     = Throw (TypeError "Cannot read properties of undefined (reading 'split')")
  /\ (Logged.handleRequest example_platform
        (live_request (geo (Some "toString") None))).2
     = Throw (TypeError "Cannot read properties of undefined (reading 'split')").
Proof. vm_compute. auto. Qed.

(** C9: every value of [CONTINENT_TO_REGION] and of [COUNTRY_OVERRIDES] is
    a key of [RTMP_SERVERS] holding a hostname, and so is [default]; still
    the decision at the descriptor [{ continent: "valueOf" }] is
    [undefined]. *)
Theorem table_invariants_do_not_ensure_hostname :
  map_Forall (fun _ v => exists r h, v = Str r /\ RTMP_SERVERS !! r = Some (Str h))
    CONTINENT_TO_REGION
  /\ map_Forall (fun _ v => exists r h, v = Str r /\ RTMP_SERVERS !! r = Some (Str h))
       COUNTRY_OVERRIDES
  /\ (exists h, RTMP_SERVERS !! "default" = Some (Str h))
  /\ determineClosestServer (live_request (geo None (Some "valueOf"))) = Undefined.
Proof.
  split; [ | split; [ | split ] ].
  - intros k v Hv.
    destruct (CONTINENT_TO_REGION_guard _ _ Hv) as (_ & _ & r & -> & Hr). eauto.
  - intros c v Hv.
    destruct (COUNTRY_OVERRIDES_guard _ _ Hv) as (_ & _ & r & -> & Hr). eauto.
  - exists "eu.streammy.io". apply RTMP_SERVERS_default.
  - vm_compute. reflexivity.
Qed.

(** C10: the four entries of [RTMP_SERVERS] hold [eu.streammy.io], whose
    region label is [eu]; the decision at the descriptor
    [{ country: "__proto__", continent: "EU" }] is [undefined], so the
    function is not constant. *)
Theorem not_constant_on_inherited_names :
  map_Forall (fun _ v => v = Str "eu.streammy.io") RTMP_SERVERS
  /\ region_label "eu.streammy.io" = "eu"
  /\ determineClosestServer (live_request (geo (Some "FR") (Some "EU")))
     = Str "eu.streammy.io"
  /\ determineClosestServer (live_request (geo (Some "__proto__") (Some "EU")))
     = Undefined.
Proof.
  split; [ | split; [ | split ] ]; try (vm_compute; reflexivity).
  intros r v Hv. each_entry Hv ltac:(done).
Qed.

(** ** The scenarios of the specification *)

(** Precedence of the override with the planned hostnames: Turkey on the
    Asian continent is sent to Europe, Japan to Asia and the United States
    to the Americas by their continents. *)
Example scenario_precedence_planned :
  resolve planned_servers CONTINENT_TO_REGION COUNTRY_OVERRIDES
    (live_request (geo (Some "TR") (Some "AS"))) = Str "eu.streammy.io"
  /\ resolve planned_servers CONTINENT_TO_REGION COUNTRY_OVERRIDES
       (live_request (geo (Some "JP") (Some "AS"))) = Str "as.streammy.io"
  /\ resolve planned_servers CONTINENT_TO_REGION COUNTRY_OVERRIDES
       (live_request (geo (Some "US") (Some "NA"))) = Str "am.streammy.io".
Proof. vm_compute. auto. Qed.

Example scenario_continent :
  (Logged.fetch example_platform (live_request (geo (Some "FR") (Some "EU")))).2
  = Normal (mkResponse 302 None
              [ ("Location", "https://eu.streammy.io/stream/abc?token=123");
                ("Cache-Control", "no-cache");
                ("X-Streammy-Region", "eu");
                ("X-Streammy-Country", "FR");
                ("X-Streammy-Continent", "EU") ]).
Proof. vm_compute. reflexivity. Qed.

Example scenario_no_descriptor :
  Plain.fetch example_platform (live_request None)
  = ([], Normal (mkResponse 302 None
                   [ ("Location", "https://eu.streammy.io/stream/abc?token=123");
                     ("Cache-Control", "no-cache");
                     ("X-Streammy-Region", "eu") ])).
Proof. vm_compute. reflexivity. Qed.

Example scenario_unknown_codes :
  determineClosestServer (live_request (geo (Some "ZZ") (Some "XX")))
  = Str "eu.streammy.io".
Proof. vm_compute. reflexivity. Qed.

(** ** Further properties of the decision function *)

Lemma inherited_or_plain o : inherited_code o \/ plain_code o.
Proof.
  destruct o as [c|]; simpl; [ | by right ].
  destruct (ObjectPrototype !! c) as [v|]; [ left; by exists v | by right ].
Qed.

(** X1: the decision is [undefined] exactly when the descriptor is present
    and either its country names an inherited property, or its country is no
    own key of [COUNTRY_OVERRIDES] and its continent names an inherited
    property. *)
Theorem undefined_decision_iff request :
  determineClosestServer request = Undefined <->
  exists g, cf request = Some g
            /\ (inherited_code (country g)
                \/ (unrecognised COUNTRY_OVERRIDES (country g)
                    /\ inherited_code (continent g))).
Proof.
  split.
  - intros Hd. destruct (cf request) as [g|] eqn:Hcf;
      [ | by rewrite (determineClosestServer_absent _ Hcf) in Hd ].
    exists g. split; [ done | ].
    destruct (inherited_or_plain (country g)) as [Hc | Hc]; [ by left | right ].
    destruct (inherited_or_plain (continent g)) as [Hk | Hk].
    + split; [ | done ].
      destruct (country g) as [c|] eqn:Ec; [ simpl | done ].
      destruct (COUNTRY_OVERRIDES !! c) as [v|] eqn:Ev; [ | done ].
      destruct (determineClosestServer_country _ _ _ _ Hcf Ec Ev) as (? & _ & _ & Hs).
      congruence.
    + rewrite determineClosestServer_plain in Hd; [ done | ].
      unfold plain_geo. by rewrite Hcf.
  - intros (g & Hcf & [Hc | [Hun Hk]]).
    + destruct (country g) as [c|] eqn:Ec; [ | done ].
      by apply (determineClosestServer_inherited_country _ g c).
    + destruct (inherited_or_plain (country g)) as [Hc | Hc].
      * destruct (country g) as [c|] eqn:Ec; [ | done ].
        by apply (determineClosestServer_inherited_country _ g c).
      * destruct (continent g) as [k|] eqn:Ek; [ | done ].
        by apply (determineClosestServer_inherited_continent _ g k).
Qed.

Lemma two_letter_plain o : two_letter o -> plain_code o.
Proof.
  destruct o as [c|]; simpl; [ | done ]. apply two_letter_not_inherited.
Qed.

(** X2: on a descriptor whose codes, where present, have two characters, the
    decision is the hostname [eu.streammy.io]. *)
Theorem two_letter_codes_resolve request g :
  cf request = Some g ->
  two_letter (country g) -> two_letter (continent g) ->
  determineClosestServer request = Str "eu.streammy.io".
Proof.
  intros Hcf Hc Hk. apply determineClosestServer_plain.
  unfold plain_geo. rewrite Hcf. split; by apply two_letter_plain.
Qed.

Lemma two_letter_codes_resolve_witness :
  determineClosestServer (live_request (geo (Some "ZZ") (Some "XX")))
  = Str "eu.streammy.io".
Proof.
  apply (two_letter_codes_resolve _ (mkCf (Some "ZZ") (Some "XX") None)).
  - reflexivity.
  - reflexivity.
  - reflexivity.
Defined.

(** X3: an empty string in the country or in the continent field is
    treated as a missing field. *)
Theorem empty_code_is_absent u m hs c k r :
  determineClosestServer (mkRequest u m hs (Some (mkCf (Some "") k r)))
  = determineClosestServer (mkRequest u m hs (Some (mkCf None k r)))
  /\ determineClosestServer (mkRequest u m hs (Some (mkCf c (Some "") r)))
     = determineClosestServer (mkRequest u m hs (Some (mkCf c None r))).
Proof.
  split; unfold determineClosestServer; cbn [cf country continent field truthy];
    reflexivity.
Qed.

(** X4: the decision depends on the request only through [cf?.country] and
    [cf?.continent]: the URL, the method, the headers and [cf.region] play
    no part, and a missing descriptor decides as a descriptor without
    fields. *)
Theorem decision_reads_country_and_continent request request' :
  cf_field country request = cf_field country request' ->
  cf_field continent request = cf_field continent request' ->
  determineClosestServer request = determineClosestServer request'.
Proof.
  assert (Hnone : forall rq g, cf rq = Some g -> country g = None ->
                    continent g = None ->
                    determineClosestServer rq = Get RTMP_SERVERS "default").
  { intros rq g Hcf Hc Hk. unfold determineClosestServer.
    by rewrite Hcf, Hc, Hk. }
  unfold cf_field.
  destruct (cf request) as [g|] eqn:H1, (cf request') as [g'|] eqn:H2;
    intros Hc Hk.
  - unfold determineClosestServer. by rewrite H1, H2, Hc, Hk.
  - rewrite (Hnone _ _ H1 Hc Hk). unfold determineClosestServer. by rewrite H2.
  - symmetry in Hc, Hk. rewrite (Hnone _ _ H2 Hc Hk).
    unfold determineClosestServer. by rewrite H1.
  - unfold determineClosestServer. by rewrite H1, H2.
Qed.

Lemma decision_reads_country_and_continent_witness :
  determineClosestServer (live_request None)
  = determineClosestServer
      (mkRequest "https://other.streammy.io/anything" "POST"
         [("cf-connecting-ip", "203.0.113.7")]
         (Some (mkCf None None (Some "Lazio")))).
Proof.
  apply decision_reads_country_and_continent.
  - reflexivity.
  - reflexivity.
Defined.

(** ** Further properties of the handlers *)

Lemma alpha2_or_unknown o :
  alpha2 o -> plain_bytes (or_else o "unknown") = true.
Proof.
  destruct o as [c|]; simpl; [ | intros _; reflexivity ].
  intros [Hlen Hc]. unfold or_else. simpl.
  destruct (String.eqb_spec c "") as [-> | _]; [ discriminate Hlen | ].
  by apply letters_plain_bytes.
Qed.

Lemma alpha2_plain o : alpha2 o -> plain_code o.
Proof.
  destruct o as [c|]; simpl; [ | done ].
  intros [Hlen _]. by apply two_letter_not_inherited.
Qed.

(** X5: for a request to [live.streammy.io] whose path and query are as the
    URL serializer gives them and whose codes, where present, are two ASCII
    letters, the plain handler returns the redirect to
    [https://eu.streammy.io] followed by the path and the query, with region
    label [eu], and the logging handler returns the same with the detected
    country and continent (or [unknown]) added. *)
Theorem two_letter_codes_redirect P request u :
  new_URL P (url request) = Normal u ->
  hostname u = "live.streammy.io" ->
  serialized u ->
  alpha2 (cf_field country request) ->
  alpha2 (cf_field continent request) ->
  Plain.handleRequest P request
  = ([], Normal (mkResponse 302 None
                   [ ("Location", "https://eu.streammy.io" +:+ pathname u +:+ search u);
                     ("Cache-Control", "no-cache");
                     ("X-Streammy-Region", "eu") ]))
  /\ (Logged.handleRequest P request).2
     = Normal (mkResponse 302 None
                 [ ("Location", "https://eu.streammy.io" +:+ pathname u +:+ search u);
                   ("Cache-Control", "no-cache");
                   ("X-Streammy-Region", "eu");
                   ("X-Streammy-Country", or_else (cf_field country request) "unknown");
                   ("X-Streammy-Continent", or_else (cf_field continent request) "unknown") ]).
Proof.
  intros Hurl Heq Hu Hc Hk.
  assert (Hd : determineClosestServer request = Str "eu.streammy.io").
  { apply determineClosestServer_plain. unfold plain_geo.
    unfold cf_field in Hc, Hk. destruct (cf request) as [g|]; [ | done ].
    split; by apply alpha2_plain. }
  destruct (redirect_headers_serialized _ Hu) as [Hheaders _].
  destruct (plain_bytes_header_value _ (alpha2_or_unknown _ Hc)) as [Hcn Hcv].
  destruct (plain_bytes_header_value _ (alpha2_or_unknown _ Hk)) as [Hkn Hkv].
  split.
  - rewrite (Plain_redirect _ _ _ Hurl _ Heq Hd). unfold new_Response.
    by rewrite (redirect_init_valid _ _ Hu), Hheaders.
  - destruct (Logged_redirect_accepted P _ _ _ Hurl Heq Hd Hu) as [_ ->].
    + by rewrite Hcn.
    + by rewrite Hkn.
    + rewrite Hheaders. unfold geo_headers, delivered, geo_init.
      cbn [map fst snd app]. by rewrite Hcn, Hkn.
Qed.

Lemma two_letter_codes_redirect_witness :
  Plain.handleRequest example_platform (live_request (geo (Some "FR") (Some "EU")))
  = ([], Normal (mkResponse 302 None
                   [ ("Location", "https://eu.streammy.io/stream/abc?token=123");
                     ("Cache-Control", "no-cache");
                     ("X-Streammy-Region", "eu") ]))
  /\ (Logged.handleRequest example_platform
        (live_request (geo (Some "FR") (Some "EU")))).2
     = Normal (mkResponse 302 None
                 [ ("Location", "https://eu.streammy.io/stream/abc?token=123");
                   ("Cache-Control", "no-cache");
                   ("X-Streammy-Region", "eu");
                   ("X-Streammy-Country", "FR");
                   ("X-Streammy-Continent", "EU") ]).
Proof.
  apply (two_letter_codes_redirect example_platform
           (live_request (geo (Some "FR") (Some "EU")))
           (mkURL "live.streammy.io" "/stream/abc" "?token=123")).
  - reflexivity.
  - reflexivity.
  - reflexivity.
  - split; reflexivity.
  - split; reflexivity.
Defined.

(** X6: a request to [live.streammy.io] is never forwarded: what both
    handlers write and return does not depend on the upstream behind the
    global [fetch]. *)
Theorem target_hostname_never_forwarded P request u upstream :
  new_URL P (url request) = Normal u ->
  hostname u = "live.streammy.io" ->
  Plain.handleRequest (with_upstream P upstream) request
  = Plain.handleRequest P request
  /\ Logged.handleRequest (with_upstream P upstream) request
     = Logged.handleRequest P request.
Proof.
  intros Hurl Heq%String.eqb_eq. run_handler.
  unfold with_upstream. cbn [new_URL global_fetch Date_toISOString].
  by rewrite Hurl, Heq.
Qed.

Lemma target_hostname_never_forwarded_witness :
  Plain.handleRequest
    (with_upstream example_platform
       (fun _ => Normal (mkResponse 200 (Some "proxied") [])))
    (live_request None)
  = Plain.handleRequest example_platform (live_request None)
  /\ Logged.handleRequest
       (with_upstream example_platform
          (fun _ => Normal (mkResponse 200 (Some "proxied") [])))
       (live_request None)
     = Logged.handleRequest example_platform (live_request None).
Proof.
  apply (target_hostname_never_forwarded example_platform (live_request None)
           (mkURL "live.streammy.io" "/stream/abc" "?token=123")).
  - reflexivity.
  - reflexivity.
Defined.

(** X7: the plain worker never writes to the console. *)
Theorem plain_worker_is_silent P request :
  (Plain.fetch P request).1 = [].
Proof.
  run_handler.
  destruct (new_URL P (url request)) as [u | e]; [ | done ].
  destruct (negb (String.eqb (hostname u) "live.streammy.io")); [ done | ].
  by destruct (split_dot_first (determineClosestServer request)).
Qed.

(** X8: the logging entry point writes what its handler writes and then
    exactly one more line: the timing line when the handler returned, the
    error record (message, error, request URL and method) when it threw. *)
Theorem logged_fetch_console P request :
  (Logged.fetch P request).1
  = ((Logged.handleRequest P request).1
     ++ [closing_line P request (Logged.handleRequest P request).2])%list.
Proof.
  unfold Logged.fetch, try_catch, mbind, M_bind, mret, M_ret, emit.
  destruct (Logged.handleRequest P request) as [out [response | error]].
  - reflexivity.
  - reflexivity.
Qed.

(** X9: the logging handler writes exactly one line when it returns a
    response, and at most one line when it throws. *)
Theorem logged_handler_line_count P request :
  match (Logged.handleRequest P request).2 with
  | Normal _ => length (Logged.handleRequest P request).1 = 1
  | Throw _ => length (Logged.handleRequest P request).1 <= 1
  end.
Proof.
  run_handler.
  destruct (new_URL P (url request)) as [u | e]; [ | simpl; lia ].
  cbn [fst snd].
  destruct (negb (String.eqb (hostname u) "live.streammy.io")).
  - destruct (global_fetch P request); simpl; lia.
  - destruct (split_dot_first (determineClosestServer request)); [ | simpl; lia ].
    cbn [fst snd].
    match goal with
    | |- context [new_Response ?a ?b ?c ?d] => destruct (new_Response a b c d)
    end; simpl; lia.
Qed.

(** X10: on a redirect decision the logging handler writes one
    [GEO-ROUTING] line, whose record holds the request URL, the selected
    server and its region label, before it builds the response. When it
    returns the response, the host of [Location] is the selected server and
    the three diagnostic headers are the logged region, country and
    continent without their surrounding whitespace; otherwise it throws the
    error of the Headers constructor for one of the lines it passed. *)
Theorem redirect_log_matches_response P request u dest :
  new_URL P (url request) = Normal u ->
  hostname u = "live.streammy.io" ->
  determineClosestServer request = Str dest ->
  exists d label,
    (Logged.handleRequest P request).1
    = [console_log ("[GEO-ROUTING] Redirecting to " +:+ dest) (Some d)]
    /\ log_url d = url request
    /\ log_selectedServer d = Some (Str dest)
    /\ log_serverRegion d = Some (Str label)
    /\ match (Logged.handleRequest P request).2 with
       | Normal response =>
           Headers_get (response_headers response) "Location"
           = Some (normalize_value ("https://" +:+ dest +:+ pathname u +:+ search u))
           /\ Headers_get (response_headers response) "X-Streammy-Region"
              = Some (normalize_value label)
           /\ Headers_get (response_headers response) "X-Streammy-Country"
              = Some (normalize_value (log_country d))
           /\ Headers_get (response_headers response) "X-Streammy-Continent"
              = Some (normalize_value (log_continent d))
       | Throw e =>
           exists k v, In (k, v) (redirect_init dest u ++ geo_init request)
                       /\ is_header_value (normalize_value v) = false
                       /\ e = invalid_header_value P k v
       end.
Proof.
  intros Hurl Heq Hdest.
  pose proof (Logged_redirect _ _ _ Hurl _ Heq Hdest) as Hresp.
  destruct (Logged_redirect_console _ _ _ Hurl _ Heq Hdest)
    as (d & Hline & Hu & Hsel & Hreg & Hc & Hk).
  exists d, (region_label dest). repeat (split; [ done | ]).
  rewrite Hresp. unfold new_Response.
  destruct (Headers_fill P _) as [hs | e] eqn:Hfill.
  - rewrite (Headers_fill_Normal _ _ _ Hfill), Hc, Hk. by repeat split.
  - by apply Headers_fill_Throw.
Qed.

Lemma redirect_log_matches_response_witness :
  exists d label,
    (Logged.handleRequest example_platform
       (live_request (geo (Some "FR ") (Some "EU")))).1
    = [console_log ("[GEO-ROUTING] Redirecting to " +:+ "eu.streammy.io") (Some d)]
    /\ log_url d = "https://live.streammy.io/stream/abc?token=123"
    /\ log_selectedServer d = Some (Str "eu.streammy.io")
    /\ log_serverRegion d = Some (Str label)
    /\ match (Logged.handleRequest example_platform
                (live_request (geo (Some "FR ") (Some "EU")))).2 with
       | Normal response =>
           Headers_get (response_headers response) "Location"
           = Some (normalize_value
                     ("https://" +:+ "eu.streammy.io" +:+ "/stream/abc" +:+ "?token=123"))
           /\ Headers_get (response_headers response) "X-Streammy-Region"
              = Some (normalize_value label)
           /\ Headers_get (response_headers response) "X-Streammy-Country"
              = Some (normalize_value (log_country d))
           /\ Headers_get (response_headers response) "X-Streammy-Continent"
              = Some (normalize_value (log_continent d))
       | Throw e =>
           exists k v,
             In (k, v)
               (redirect_init "eu.streammy.io"
                  (mkURL "live.streammy.io" "/stream/abc" "?token=123")
                ++ geo_init (live_request (geo (Some "FR ") (Some "EU"))))
             /\ is_header_value (normalize_value v) = false
             /\ e = invalid_header_value example_platform k v
       end.
Proof.
  apply (redirect_log_matches_response example_platform
           (live_request (geo (Some "FR ") (Some "EU")))
           (mkURL "live.streammy.io" "/stream/abc" "?token=123") "eu.streammy.io").
  - reflexivity.
  - reflexivity.
  - vm_compute. reflexivity.
Defined.

(** X11: when the detected country is refused as a header value (it still
    holds a NUL, LF or CR once its surrounding whitespace is removed), a
    request to [live.streammy.io] with a decided hostname is answered with
    the redirect by the plain worker, and with the 500 response made from
    the error of the Headers constructor by the logging worker, after its
    [GEO-ROUTING] line. *)
Theorem refused_country_outcome P request u dest :
  new_URL P (url request) = Normal u ->
  hostname u = "live.streammy.io" ->
  determineClosestServer request = Str dest ->
  serialized u ->
  is_header_value (normalize_value (or_else (cf_field country request) "unknown")) = false ->
  Plain.fetch P request
  = ([], Normal (mkResponse 302 None
                   [ ("Location", "https://eu.streammy.io" +:+ pathname u +:+ search u);
                     ("Cache-Control", "no-cache");
                     ("X-Streammy-Region", "eu") ]))
  /\ (Logged.fetch P request).2
     = Normal (internal_error_response
                 (invalid_header_value P "X-Streammy-Country"
                    (or_else (cf_field country request) "unknown")))
  /\ length (Logged.fetch P request).1 = 2.
Proof.
  intros Hurl Heq Hdest Hu Hbad.
  assert (dest = "eu.streammy.io") as ->.
  { destruct (determineClosestServer_range request) as [Hd | Hd]; congruence. }
  destruct (redirect_headers_serialized _ Hu) as [Hheaders _].
  assert (Hlogged : (Logged.handleRequest P request).2
                    = Throw (invalid_header_value P "X-Streammy-Country"
                               (or_else (cf_field country request) "unknown"))).
  { rewrite (Logged_redirect _ _ _ Hurl _ Heq Hdest). unfold new_Response.
    rewrite Headers_fill_app, (redirect_init_valid _ _ Hu).
    unfold geo_init. cbn [Headers_fill]. by rewrite Hbad. }
  split; [ | split ].
  - unfold Plain.fetch. rewrite (Plain_redirect _ _ _ Hurl _ Heq Hdest).
    unfold new_Response. by rewrite (redirect_init_valid _ _ Hu), Hheaders.
  - by rewrite Logged_fetch_outcome, Hlogged.
  - destruct (Logged_redirect_console _ _ _ Hurl _ Heq Hdest) as (d & Hline & _).
    unfold Logged.fetch, try_catch, mbind, M_bind, mret, M_ret, emit, lift.
    destruct (Logged.handleRequest P request) as [out [r | e]];
      simpl in Hlogged, Hline; [ discriminate Hlogged | ].
    by rewrite Hline.
Qed.

Lemma refused_country_outcome_witness :
  Plain.fetch example_platform
    (live_request (geo (Some (String "A" (String "000" ""))) None))
  = ([], Normal (mkResponse 302 None
                   [ ("Location", "https://eu.streammy.io/stream/abc?token=123");
                     ("Cache-Control", "no-cache");
                     ("X-Streammy-Region", "eu") ]))
  /\ (Logged.fetch example_platform
        (live_request (geo (Some (String "A" (String "000" ""))) None))).2
     = Normal (internal_error_response
                 (TypeError "Invalid value for header X-Streammy-Country"))
  /\ length (Logged.fetch example_platform
               (live_request (geo (Some (String "A" (String "000" ""))) None))).1 = 2.
Proof.
  apply (refused_country_outcome example_platform
           (live_request (geo (Some (String "A" (String "000" ""))) None))
           (mkURL "live.streammy.io" "/stream/abc" "?token=123") "eu.streammy.io").
  - reflexivity.
  - reflexivity.
  - vm_compute. reflexivity.
  - reflexivity.
  - vm_compute. reflexivity.
Defined.

(** ** Further properties of [split] and of the region label *)

Lemma split_cons sep c rest :
  split sep (String c rest)
  = if Ascii.eqb c sep then "" :: split sep rest
    else match split sep rest with
         | [] => [String c ""]
         | w :: ws => String c w :: ws
         end.
Proof. reflexivity. Qed.

(** X12: joining the pieces of [s.split(sep)] with [sep] gives [s] back, and
    no piece contains [sep]. *)
Theorem split_join_round_trip sep s :
  String.concat (String sep "") (split sep s) = s
  /\ Forall (fun w => ~ In sep (list_ascii_of_string w)) (split sep s).
Proof.
  induction s as [ | c rest [IHjoin IHall] ].
  - split; [ reflexivity | ]. constructor; [ | constructor ]. simpl. tauto.
  - rewrite split_cons.
    destruct (split_head sep rest) as (w & ws & Hsplit & _).
    rewrite Hsplit in *.
    destruct (Ascii.eqb_spec c sep) as [-> | Hne].
    + split.
      * change (String.concat (String sep "") ("" :: w :: ws))
          with (String sep (String.concat (String sep "") (w :: ws))).
        by rewrite IHjoin.
      * constructor; [ simpl; tauto | done ].
    + split.
      * rewrite <- IHjoin. by destruct ws.
      * inversion IHall as [ | ? ? Hw Hws ]; subst.
        constructor; [ | done ].
        simpl. intros [Heq | Hin]; [ by symmetry in Heq | done ].
Qed.

Lemma split_without_separator sep s :
  ~ In sep (list_ascii_of_string s) -> split sep s = [s].
Proof.
  induction s as [ | c rest IH ]; [ done | ].
  simpl. intros Hnot. destruct (Ascii.eqb_spec c sep) as [-> | Hne].
  - exfalso. apply Hnot. by left.
  - rewrite IH; [ done | ]. intros Hin. apply Hnot. by right.
Qed.

(** X13: on a hostname without a dot, [closestServer.split('.')[0]] is the
    whole hostname. *)
Theorem label_of_dotless_hostname dest :
  ~ In "."%char (list_ascii_of_string dest) ->
  split_dot_first (Str dest) = Normal (Str dest).
Proof.
  intros Hnot. unfold split_dot_first. by rewrite split_without_separator.
Qed.

Lemma label_of_dotless_hostname_witness :
  split_dot_first (Str "localhost") = Normal (Str "localhost").
Proof.
  apply label_of_dotless_hostname.
  simpl. intros H. repeat (destruct H as [H | H]; [ discriminate H | ]). exact H.
Defined.

(** ** The algorithm when the tables change *)

(** X14: whatever the three tables hold, a country that is an own key of
    the override table with a non-empty region is decided by the entry of
    that region in the server table, with no condition on the continent. *)
Theorem override_precedence_any_tables
    (servers continents countries : gmap string value) request g c r :
  cf request = Some g ->
  country g = Some c -> c <> "" ->
  countries !! c = Some (Str r) -> r <> "" ->
  resolve servers continents countries request = Get servers r.
Proof. apply resolve_country. Qed.

Lemma override_precedence_any_tables_witness :
  resolve planned_servers CONTINENT_TO_REGION COUNTRY_OVERRIDES
    (live_request (geo (Some "TR") (Some "AS")))
  = Get planned_servers "europe".
Proof.
  apply (override_precedence_any_tables planned_servers CONTINENT_TO_REGION
           COUNTRY_OVERRIDES (live_request (geo (Some "TR") (Some "AS")))
           (mkCf (Some "TR") (Some "AS") None) "TR" "europe").
  - reflexivity.
  - reflexivity.
  - discriminate.
  - vm_compute. reflexivity.
  - discriminate.
Defined.

(** X15: whatever the three tables hold, when the country is missing or is
    neither an own key of the override table nor an inherited property name,
    a continent that is an own key of the continent table with a non-empty
    region is decided by the entry of that region in the server table. *)
Theorem continent_fallback_any_tables
    (servers continents countries : gmap string value) request g k r :
  cf request = Some g ->
  unrecognised countries (country g) -> plain_code (country g) ->
  continent g = Some k -> k <> "" ->
  continents !! k = Some (Str r) -> r <> "" ->
  resolve servers continents countries request = Get servers r.
Proof. apply resolve_continent. Qed.

Lemma continent_fallback_any_tables_witness :
  resolve planned_servers CONTINENT_TO_REGION COUNTRY_OVERRIDES
    (live_request (geo (Some "JP") (Some "AS")))
  = Get planned_servers "asia".
Proof.
  apply (continent_fallback_any_tables planned_servers CONTINENT_TO_REGION
           COUNTRY_OVERRIDES (live_request (geo (Some "JP") (Some "AS")))
           (mkCf (Some "JP") (Some "AS") None) "AS" "asia").
  - reflexivity.
  - vm_compute. reflexivity.
  - vm_compute. reflexivity.
  - reflexivity.
  - discriminate.
  - vm_compute. reflexivity.
  - discriminate.
Defined.

(** ** Failures at the entry points *)

(** X16: when the request URL does not parse, the plain worker throws the
    parser's error without writing anything; the logging worker writes one
    error record and nothing else, and answers with the 500 response. *)
Theorem unparsable_url_outcome P request e :
  new_URL P (url request) = Throw e ->
  Plain.fetch P request = ([], Throw e)
  /\ Logged.fetch P request
     = ([console_error ("[ERROR] " +:+ message e) e (url request) (method request)],
        Normal (mkResponse 500 (Some ("Internal Server Error: " +:+ message e))
                  [ ("Content-Type", "text/plain") ])).
Proof.
  intros Hurl. run_handler. by rewrite Hurl.
Qed.

Lemma unparsable_url_outcome_witness :
  Plain.fetch example_platform malformed_request
  = ([], Throw (TypeError "Invalid URL"))
  /\ Logged.fetch example_platform malformed_request
     = ([console_error ("[ERROR] " +:+ "Invalid URL") (TypeError "Invalid URL")
           "not a url" "GET"],
        Normal (mkResponse 500 (Some ("Internal Server Error: " +:+ "Invalid URL"))
                  [ ("Content-Type", "text/plain") ])).
Proof.
  apply (unparsable_url_outcome example_platform malformed_request
           (TypeError "Invalid URL")).
  reflexivity.
Defined.

(** X17: when the upstream [fetch] of a pass-through rejects, there is no
    second attempt: the plain worker throws that error; the logging worker
    writes the [NON-TARGET] line and the error record, no timing line, and
    answers with the 500 response. *)
Theorem upstream_failure_outcome P request u e :
  new_URL P (url request) = Normal u ->
  hostname u <> "live.streammy.io" ->
  global_fetch P request = Throw e ->
  Plain.fetch P request = ([], Throw e)
  /\ exists d,
       Logged.fetch P request
       = ([console_log ("[NON-TARGET] Request for " +:+ hostname u) (Some d);
           console_error ("[ERROR] " +:+ message e) e (url request) (method request)],
          Normal (mkResponse 500 (Some ("Internal Server Error: " +:+ message e))
                    [ ("Content-Type", "text/plain") ])).
Proof.
  intros Hurl Hne%String.eqb_neq Hup. run_handler.
  rewrite Hurl, Hne, Hup. split; [ reflexivity | ]. eexists. reflexivity.
Qed.

Lemma upstream_failure_outcome_witness :
  Plain.fetch example_platform down_request = ([], Throw (TypeError "fetch failed"))
  /\ exists d,
       Logged.fetch example_platform down_request
       = ([console_log ("[NON-TARGET] Request for " +:+ "down.streammy.io") (Some d);
           console_error ("[ERROR] " +:+ "fetch failed") (TypeError "fetch failed")
             "https://down.streammy.io/" "GET"],
          Normal (mkResponse 500 (Some ("Internal Server Error: " +:+ "fetch failed"))
                    [ ("Content-Type", "text/plain") ])).
Proof.
  apply (upstream_failure_outcome example_platform down_request
           (mkURL "down.streammy.io" "/" "") (TypeError "fetch failed")).
  - reflexivity.
  - simpl. discriminate.
  - reflexivity.
Defined.

(** X18: when the decision for a request to [live.streammy.io] is
    [undefined], the logging worker writes no [GEO-ROUTING] line, only the
    error record, and answers with the 500 response whose body carries the
    message of the [TypeError]. *)
Theorem unresolved_decision_outcome P request u :
  new_URL P (url request) = Normal u ->
  hostname u = "live.streammy.io" ->
  determineClosestServer request = Undefined ->
  Logged.fetch P request
  = ([console_error
        "[ERROR] Cannot read properties of undefined (reading 'split')"
        (TypeError "Cannot read properties of undefined (reading 'split')")
        (url request) (method request)],
     Normal (mkResponse 500
               (Some "Internal Server Error: Cannot read properties of undefined (reading 'split')")
               [ ("Content-Type", "text/plain") ])).
Proof.
  intros Hurl Heq%String.eqb_eq Hd. run_handler. by rewrite Hurl, Heq, Hd.
Qed.

Lemma unresolved_decision_outcome_witness :
  Logged.fetch example_platform (live_request (geo (Some "valueOf") None))
  = ([console_error
        "[ERROR] Cannot read properties of undefined (reading 'split')"
        (TypeError "Cannot read properties of undefined (reading 'split')")
        "https://live.streammy.io/stream/abc?token=123" "GET"],
     Normal (mkResponse 500
               (Some "Internal Server Error: Cannot read properties of undefined (reading 'split')")
               [ ("Content-Type", "text/plain") ])).
Proof.
  apply (unresolved_decision_outcome example_platform
           (live_request (geo (Some "valueOf") None))
           (mkURL "live.streammy.io" "/stream/abc" "?token=123")).
  - reflexivity.
  - reflexivity.
  - vm_compute. reflexivity.
Defined.

(** X19: every answer of the logging worker is one of three: the upstream
    response of a request to another hostname, the redirect to
    [eu.streammy.io] of a request to [live.streammy.io], or the 500
    response. *)
Theorem logged_worker_answers P request :
  exists response,
    (Logged.fetch P request).2 = Normal response
    /\ ((exists u, new_URL P (url request) = Normal u
                   /\ hostname u <> "live.streammy.io"
                   /\ global_fetch P request = Normal response)
        \/ (exists u, new_URL P (url request) = Normal u
                      /\ hostname u = "live.streammy.io"
                      /\ response
                         = mkResponse 302 None
                             (redirect_headers "eu.streammy.io" u
                              ++ geo_headers request))
        \/ (exists e, response = internal_error_response e)).
Proof.
  rewrite Logged_fetch_outcome. eexists. split; [ reflexivity | ].
  destruct (new_URL P (url request)) as [u | e] eqn:Hurl.
  - destruct (String.eqb_spec (hostname u) "live.streammy.io") as [Heq | Hne].
    + destruct (Logged_target_hostname _ _ _ Hurl Heq) as [-> | [e ->]].
      * right. left. by exists u.
      * right. right. by exists e.
    + rewrite (Logged_passthrough _ _ _ Hurl Hne).
      destruct (global_fetch P request) as [response | e] eqn:Hup.
      * left. by exists u.
      * right. right. by eexists.
  - right. right. exists e. run_handler. by rewrite Hurl.
Qed.
